(** * Gas-Checker: the gas-cost aggregation route

    A shallow embedding of the API route of the Gas-Checker application
    ([fetchTransactionHistory], [fetchHistoricalETHPrice],
    [calculateTotalGasCost] and the [GET] handler) together with the part of
    the JavaScript run-time these functions rely on (truthiness, [||],
    [BigInt], [Number], [parseFloat], [Date], [Number.prototype.toFixed],
    [Number.prototype.toString]) and ethers' [formatEther].

    Conventions of the model:
    - a JavaScript number is an IEEE-754 binary64 value, a [spec_float] of
      precision 53 and maximal exponent 1024; a BigInt is a [Z]; a string is
      a [string] of ASCII characters;
    - the bodies of the providers' responses are JSON objects, and so are
      the elements of the [transactions] and [data] arrays; the fields the
      route reads hold primitive values;
    - a call of [axios.post] takes the next scripted answer of the endpoint
      it addresses and records the request; an endpoint whose script has
      run out never answers, and the call hangs ([None]);
    - [console.log], [console.warn] and [console.error] are left out. *)

From Stdlib Require Import ZArith NArith List String Ascii Bool Lia.
From Stdlib Require Import Decimal DecimalString DecimalN DecimalZ DecimalPos.
From Stdlib Require Import SpecFloat.
Import ListNotations.

#[local] Open Scope string_scope.
#[local] Open Scope Z_scope.

(** ** JavaScript values *)

Module Js.

(** A number: binary64. *)
Definition number := spec_float.

Definition prec : Z := 53.
Definition emax : Z := 1024.

Definition NaN : number := S754_nan.

Definition fadd : number -> number -> number := SFadd prec emax.
Definition fmul : number -> number -> number := SFmul prec emax.

(** The number nearest to [num / den] (ties to even), [den] positive. *)
Definition round_ratio (neg : bool) (num den : positive) : number :=
  SFdiv prec emax (S754_finite neg num 0) (S754_finite false den 0).

(** The number nearest to the integer [z]. *)
Definition number_of_Z (z : Z) : number := binary_normalize prec emax z 0 false.

(** The primitive values a JSON document can hold in a field, and
    [undefined] for a field that is not there. *)
Inductive value :=
| Undefined
| Null
| Bool (b : bool)
| Number (x : number)
| String (s : string).

(** ToBoolean. *)
Definition truthy (v : value) : bool :=
  match v with
  | Undefined | Null => false
  | Bool b => b
  | Number (S754_zero _) | Number S754_nan => false
  | Number _ => true
  | String s => negb (s =? "")%string
  end.

(** [a || b]. *)
Definition logical_or (a b : value) : value := if truthy a then a else b.

(** Errors.  The message of an error the engine or a library raises is
    engine-defined text and is left empty; the message of a failed request
    is the one the HTTP client reports. *)
Inductive error_name := AxiosError | TypeError | RangeError | SyntaxError | NumericFault.

Record error := { name : error_name; message : string }.

Definition raised (n : error_name) : error := {| name := n; message := "" |}.

(** A computation without effects that returns or throws. *)
Inductive completion (A : Type) :=
| Normal (a : A)
| Throw (e : error).
Arguments Normal {A} a.
Arguments Throw {A} e.

(** *** Text *)

(** White space, within ASCII: TAB, LF, VT, FF, CR and SP. *)
Definition is_space (c : ascii) : bool :=
  let n := N_of_ascii c in
  (((9 <=? n) && (n <=? 13)) || (n =? 32))%N.

Definition is_digit (c : ascii) : bool :=
  let n := N_of_ascii c in ((48 <=? n) && (n <=? 57))%N.

Fixpoint trim_start (s : string) : string :=
  match s with
  | String.String c s' => if is_space c then trim_start s' else s
  | EmptyString => s
  end.

Fixpoint rev_string (s : string) (acc : string) : string :=
  match s with
  | EmptyString => acc
  | String.String c s' => rev_string s' (String.String c acc)
  end.

Definition trim_end (s : string) : string :=
  rev_string (trim_start (rev_string s "")) "".

Definition trim (s : string) : string := trim_end (trim_start s).

(** The value of a digit in radix 2, 8 or 16. *)
Definition digit_in (radix : N) (c : ascii) : option N :=
  let n := N_of_ascii c in
  let v := (if (48 <=? n) && (n <=? 57) then Some (n - 48)
            else if (97 <=? n) && (n <=? 102) then Some (n - 87)
            else if (65 <=? n) && (n <=? 70) then Some (n - 55)
            else None)%N in
  match v with
  | Some d => if (d <? radix)%N then Some d else None
  | None => None
  end.

Fixpoint digits_in (radix : N) (s : string) (acc : N) : option N :=
  match s with
  | EmptyString => Some acc
  | String.String c s' =>
      match digit_in radix c with
      | Some d => digits_in radix s' (acc * radix + d)%N
      | None => None
      end
  end.

(** One or more digits of the radix. *)
Definition radix_literal (radix : N) (s : string) : option N :=
  match s with
  | EmptyString => None
  | _ => digits_in radix s 0%N
  end.

(** DecimalDigits: one or more decimal digits. *)
Definition decimal_digits (s : string) : option N :=
  option_map N.of_uint (NilZero.uint_of_string s).

(** NonDecimalIntegerLiteral: [0b], [0o] or [0x] and digits. *)
Definition non_decimal_literal (s : string) : option N :=
  match s with
  | String.String "0" (String.String p s') =>
      if ((p =? "x") || (p =? "X"))%char then radix_literal 16 s'
      else if ((p =? "o") || (p =? "O"))%char then radix_literal 8 s'
      else if ((p =? "b") || (p =? "B"))%char then radix_literal 2 s'
      else None
  | _ => None
  end.

(** *** BigInt *)

(** StringToBigInt: white space is trimmed; the empty text is [0n]; a
    decimal literal may carry a sign, a binary, octal or hexadecimal one may
    not; anything else is no BigInt. *)
Definition StringToBigInt (s : string) : option Z :=
  match trim s with
  | EmptyString => Some 0
  | String.String "+" s' => option_map Z.of_N (decimal_digits s')
  | String.String "-" s' => option_map (fun n => - Z.of_N n) (decimal_digits s')
  | t =>
      match decimal_digits t with
      | Some n => Some (Z.of_N n)
      | None => option_map Z.of_N (non_decimal_literal t)
      end
  end.

(** The integer a finite number is, if it is one. *)
Definition integral_value (x : number) : option Z :=
  match x with
  | S754_zero _ => Some 0
  | S754_finite s m e =>
      let signed z := if s then - z else z in
      match e with
      | Zneg p =>
          if (Z.pos m mod 2 ^ Z.pos p =? 0) then Some (signed (Z.pos m / 2 ^ Z.pos p))
          else None
      | _ => Some (signed (Z.pos m * 2 ^ e))
      end
  | _ => None
  end.

(** [BigInt(v)]. *)
Definition BigInt (v : value) : completion Z :=
  match v with
  | Undefined | Null => Throw (raised TypeError)
  | Bool b => Normal (if b then 1 else 0)
  | Number x =>
      match integral_value x with
      | Some z => Normal z
      | None => Throw (raised RangeError)
      end
  | String s =>
      match StringToBigInt s with
      | Some z => Normal z
      | None => Throw (raised SyntaxError)
      end
  end.

(** [BigInt.prototype.toString()]: the decimal digits, with a minus sign
    for a negative value. *)
Definition BigInt_toString (z : Z) : string := NilZero.string_of_int (Z.to_int z).

(** *** Numeric literals *)

(** The value of a run of decimal digits; the empty run is 0. *)
Definition digits_value (s : string) : N :=
  match NilEmpty.uint_of_string s with
  | Some d => N.of_uint d
  | None => 0%N
  end.

(** The longest run of decimal digits [s] starts with, and what follows. *)
Fixpoint span_digits (s : string) : string * string :=
  match s with
  | String.String c s' =>
      if is_digit c then let (d, r) := span_digits s' in (String.String c d, r)
      else (EmptyString, s)
  | EmptyString => (EmptyString, EmptyString)
  end.

(** The mathematical value of an unsigned decimal literal: infinite, or
    [digits * 10 ^ exp10]. *)
Inductive magnitude :=
| MagInfinity
| MagDecimal (digits : N) (exp10 : Z).

(** ExponentPart, if [s] starts with one: its value and what follows. *)
Definition scan_exponent (s : string) : Z * string :=
  match s with
  | String.String c s1 =>
      if ((c =? "e") || (c =? "E"))%char then
        let '(neg, s2) :=
          match s1 with
          | String.String "+" s2 => (false, s2)
          | String.String "-" s2 => (true, s2)
          | _ => (false, s1)
          end in
        let (ds, rest) := span_digits s2 in
        match ds with
        | EmptyString => (0, s)
        | _ => ((if neg then - Z.of_N (digits_value ds) else Z.of_N (digits_value ds)), rest)
        end
      else (0, s)
  | EmptyString => (0, s)
  end.

(** The longest StrUnsignedDecimalLiteral [s] starts with, and what
    follows it. *)
Definition scan_unsigned_decimal (s : string) : option (magnitude * string) :=
  if prefix "Infinity" s then Some (MagInfinity, substring 8 (length s - 8) s)
  else
    let (ip, r1) := span_digits s in
    let '(fp, r2, dotted) :=
      match r1 with
      | String.String "." r =>
          let (fp, r2) := span_digits r in
          match ip, fp with
          | EmptyString, EmptyString => (EmptyString, r1, false)
          | _, _ => (fp, r2, true)
          end
      | _ => (EmptyString, r1, false)
      end in
    match ip, dotted with
    | EmptyString, false => None
    | _, _ =>
        let (e, rest) := scan_exponent r2 in
        Some (MagDecimal (digits_value (ip ++ fp)) (e - Z.of_nat (length fp)), rest)
    end.

(** The longest StrDecimalLiteral [s] starts with: sign, magnitude and
    what follows. *)
Definition scan_decimal (s : string) : option (bool * magnitude * string) :=
  let '(neg, s') :=
    match s with
    | String.String "+" s' => (false, s')
    | String.String "-" s' => (true, s')
    | _ => (false, s)
    end in
  match scan_unsigned_decimal s' with
  | Some (m, rest) => Some (neg, m, rest)
  | None => None
  end.

(** The number nearest to a signed magnitude. *)
Definition number_of_magnitude (neg : bool) (m : magnitude) : number :=
  match m with
  | MagInfinity => S754_infinity neg
  | MagDecimal 0%N _ => S754_zero neg
  | MagDecimal (Npos d) e =>
      match e with
      | Zneg p => round_ratio neg d (10 ^ p)
      | _ => binary_normalize prec emax ((if neg then Z.neg d else Z.pos d) * 10 ^ e) 0 false
      end
  end.

(** StringToNumber. *)
Definition StringToNumber (s : string) : number :=
  match trim s with
  | EmptyString => S754_zero false
  | t =>
      match scan_decimal t with
      | Some (neg, m, EmptyString) => number_of_magnitude neg m
      | _ =>
          match non_decimal_literal t with
          | Some n => number_of_Z (Z.of_N n)
          | None => NaN
          end
      end
  end.

(** [Number(v)], ToNumber. *)
Definition ToNumber (v : value) : number :=
  match v with
  | Undefined => NaN
  | Null => S754_zero false
  | Bool b => if b then number_of_Z 1 else S754_zero false
  | Number x => x
  | String s => StringToNumber s
  end.

(** *** Number to text *)

(** The decimal digits of a natural number, ["0"] for 0. *)
Definition decimal (n : N) : string := NilZero.string_of_uint (N.to_uint n).

Fixpoint zeros (n : nat) : string :=
  match n with
  | O => EmptyString
  | S n' => String.String "0" (zeros n')
  end.

(** The exact value of a positive finite number, as a fraction. *)
Definition fraction_of (m : positive) (e : Z) : Z * Z :=
  match e with
  | Zneg p => (Z.pos m, 2 ^ Z.pos p)
  | _ => (Z.pos m * 2 ^ e, 1)
  end.

(** The [n] with [10 ^ (n - 1) <= num / den < 10 ^ n]. *)
Fixpoint scale_up (fuel : nat) (num den : Z) (j : Z) : Z :=
  match fuel with
  | O => j
  | S fuel' => if num * 10 ^ j <? den then scale_up fuel' num den (j + 1) else j
  end.

Definition decimal_exponent (num den : Z) : Z :=
  if den <=? num
  then Z.of_nat (String.length (decimal (Z.to_N (num / den))))
  else 1 - scale_up (Z.to_nat (Z.log2 den + 1)) num den 0.

(** [num / den] in units of [10 ^ u]: quotient and whether the remainder
    is below, at or above half a unit. *)
Definition in_units (num den u : Z) : Z * comparison :=
  let '(a, b) := if 0 <=? u then (num, den * 10 ^ u) else (num * 10 ^ (- u), den) in
  (a / b, (2 * (a mod b) ?= b)).

(** The digits [s] of length [k] at decimal exponent [n] that read back
    as [x], if there are any; of two, the nearer, the even on a tie. *)
Definition digits_at (x : number) (num den n : Z) (k : Z) : option (Z * Z) :=
  let '(lo, half) := in_units num den (n - k) in
  let hi := lo + 1 in
  let reads s := SFeqb (number_of_magnitude false (MagDecimal (Z.to_N s) (n - k))) x in
  let up := if hi =? 10 ^ k then (10 ^ (k - 1), n + 1) else (hi, n) in
  match reads lo, reads hi with
  | true, true =>
      match half with
      | Lt => Some (lo, n)
      | Gt => Some up
      | Eq => if Z.even lo then Some (lo, n) else Some up
      end
  | true, false => Some (lo, n)
  | false, true => Some up
  | false, false => None
  end.

Fixpoint shortest_digits (fuel : nat) (x : number) (num den n : Z) (k : Z) : Z * Z :=
  match fuel with
  | O => (fst (in_units num den (n - k)), n)
  | S fuel' =>
      match digits_at x num den n k with
      | Some r => r
      | None => shortest_digits fuel' x num den n (k + 1)
      end
  end.

(** [Number::toString] of a positive finite number [m * 2 ^ e]: the
    fewest digits that read back as the number, laid out as a decimal or in
    exponent form. *)
Definition positive_toString (m : positive) (e : Z) : string :=
  let (num, den) := fraction_of m e in
  let '(s, n) := shortest_digits 17 (S754_finite false m e) num den (decimal_exponent num den) 1 in
  let ds := decimal (Z.to_N s) in
  let k := Z.of_nat (String.length ds) in
  if (k <=? n) && (n <=? 21) then ds ++ zeros (Z.to_nat (n - k))
  else if (0 <? n) && (n <=? 21) then
    substring 0 (Z.to_nat n) ds ++ "." ++ substring (Z.to_nat n) (Z.to_nat (k - n)) ds
  else if (-6 <? n) && (n <=? 0) then "0." ++ zeros (Z.to_nat (- n)) ++ ds
  else
    let ex := (if 0 <=? n - 1 then "+" else "-") ++ decimal (Z.to_N (Z.abs (n - 1))) in
    if k =? 1 then ds ++ "e" ++ ex
    else substring 0 1 ds ++ "." ++ substring 1 (Z.to_nat (k - 1)) ds ++ "e" ++ ex.

(** [Number.prototype.toString()]. *)
Definition Number_toString (x : number) : string :=
  match x with
  | S754_nan => "NaN"
  | S754_zero _ => "0"
  | S754_infinity false => "Infinity"
  | S754_infinity true => "-Infinity"
  | S754_finite false m e => positive_toString m e
  | S754_finite true m e => "-" ++ positive_toString m e
  end.

(** [Number.prototype.toFixed(2)]: a number that is not finite, or is
    [10 ^ 21] or more in magnitude, is rendered as by [toString];
    otherwise the nearest count of hundredths (the larger of two) is
    written with a point before its last two digits. *)
Definition toFixed2 (x : number) : string :=
  match x with
  | S754_zero _ => "0.00"
  | S754_finite neg m e =>
      let s := if neg then "-" else "" in
      let (num, den) := fraction_of m e in
      if 10 ^ 21 * den <=? num then s ++ positive_toString m e
      else
        let n := (2 * num * 100 + den) / (2 * den) in
        let m0 := decimal (Z.to_N n) in
        let m1 := zeros (3 - String.length m0) ++ m0 in
        let k := String.length m1 in
        s ++ substring 0 (k - 2) m1 ++ "." ++ substring (k - 2) 2 m1
  | _ => Number_toString x
  end.

(** [parseFloat(v)]: the text is ToString of the argument; leading white
    space is skipped and the longest decimal literal at the start is read. *)
Definition parseFloat_string (s : string) : number :=
  match scan_decimal (trim_start s) with
  | Some (neg, m, _) => number_of_magnitude neg m
  | None => NaN
  end.

Definition parseFloat (v : value) : number :=
  match v with
  | String s => parseFloat_string s
  | Number x => parseFloat_string (Number_toString x)
  | Undefined | Null | Bool _ => NaN
  end.

(** *** Dates *)

(** A Date object: its time value in milliseconds, [None] for an invalid
    date. [new Date(x)] keeps a finite [x] of magnitude at most
    8.64e15, truncated to an integer (TimeClip). *)
Definition Date := option Z.

Definition new_Date (x : number) : Date :=
  match x with
  | S754_zero _ => Some 0
  | S754_finite s m e =>
      let (num, den) := fraction_of m e in
      let t := num / den in
      if t <=? 8640000000000000 then
        if (t =? 8640000000000000) && negb (num mod den =? 0) then None
        else Some (if s then - t else t)
      else None
  | _ => None
  end.

(** [Date.prototype.toISOString()]: a RangeError for an invalid date. The
    ISO-8601 text of a valid date is determined by its time value, which
    stands for it here. *)
Definition toISOString (d : Date) : completion Z :=
  match d with
  | Some t => Normal t
  | None => Throw (raised RangeError)
  end.

(** *** ethers *)

(** [formatEther(wei)] of ethers 6, that is [formatUnits(wei, 18)]: the
    value is a signed fixed-point number of width 512 with 18 decimals (a
    value outside the width is a numeric fault); its text has the digits
    padded to a whole part, the point before the last 18, and trailing
    zeros of the fraction removed but for one. *)
Fixpoint strip_trailing_zeros (frac : string) : string :=
  match frac with
  | EmptyString => EmptyString
  | String.String c rest =>
      match strip_trailing_zeros rest with
      | EmptyString => if (c =? "0")%char then EmptyString else String.String c EmptyString
      | r => String.String c r
      end
  end.

Definition formatEther (wei : Z) : completion string :=
  if (- 2 ^ 511 <=? wei) && (wei <? 2 ^ 511) then
    let negative := if wei <? 0 then "-" else "" in
    let str0 := decimal (Z.to_N (Z.abs wei)) in
    let str := zeros (19 - String.length str0) ++ str0 in
    let index := (String.length str - 18)%nat in
    let whole := substring 0 index str in
    let frac := substring index 18 str in
    let frac' := match strip_trailing_zeros frac with EmptyString => "0" | f => f end in
    Normal (negative ++ whole ++ "." ++ frac')
  else Throw (raised NumericFault).

End Js.

(** ** The upstream providers *)

Import Js.

(** A record of the transaction-history provider: the fields the route
    reads, [Undefined] for one that is not there. *)
Record TransactionRecord := {
  hash : value;
  gasUsed : value;
  gas : value;
  effectiveGasPrice : value;
  gasPrice : value;
  blockTimestamp : value
}.

(** [response.data] of the history endpoint: its fields [transactions]
    ([None] unless the field holds an array), [before] and [after]. *)
Record HistoryData := {
  response_transactions : option (list TransactionRecord);
  response_before : value;
  response_after : value
}.

(** A point of [response.data.data] of the price endpoint. *)
Record PricePoint := { point_value : value }.

(** [response.data.data] of the price endpoint, [None] unless the body
    holds an array there. *)
Definition PriceData := option (list PricePoint).

(** The promise [axios.post] returns: resolved with a response, or
    rejected with a transport or provider error. *)
Inductive reply (A : Type) :=
| Resolved (data : A)
| Rejected (e : error).
Arguments Resolved {A} data.
Arguments Rejected {A} e.

Definition NETWORK : string := "eth-mainnet".

(** The payload of a history request. *)
Record HistoryRequest := {
  addresses_address : string;
  addresses_networks : list string;
  limit : Z;
  data_before : value;
  data_after : value
}.

(** The payload of a price request; the two times are the time values of
    the ISO-8601 texts sent. *)
Record PriceRequest := {
  symbol : string;
  startTime : Z;
  endTime : Z;
  interval : string
}.

Inductive request :=
| PostHistory (data : HistoryRequest)
| PostPrice (body : PriceRequest).

(** The world a call runs in: what each endpoint will answer, request by
    request; the requests sent so far; and the wall-clock time of the call,
    which the route has no statement to read. *)
Record world := {
  history_script : list (reply HistoryData);
  price_script : list (reply PriceData);
  sent : list request;
  clock : Z
}.

(** ** Effects *)

(** A computation of the route: from a world, nothing when an upstream
    call never answers, else a completion and the world after it. *)
Definition M (A : Type) : Type := world -> option (completion A * world).

Definition ret {A} (a : A) : M A := fun w => Some (Normal a, w).

Definition throw {A} (e : error) : M A := fun w => Some (Throw e, w).

Definition bind {A B} (m : M A) (k : A -> M B) : M B :=
  fun w =>
    match m w with
    | Some (Normal a, w') => k a w'
    | Some (Throw e, w') => Some (Throw e, w')
    | None => None
    end.

Definition try_catch {A} (m : M A) (handler : error -> M A) : M A :=
  fun w =>
    match m w with
    | Some (Throw e, w') => handler e w'
    | r => r
    end.

Definition lift {A} (c : completion A) : M A :=
  match c with
  | Normal a => ret a
  | Throw e => throw e
  end.

Declare Scope route_scope.
Delimit Scope route_scope with route.
Notation "x <- m ;; k" := (bind m (fun x => k))
  (at level 61, m at next level, right associativity) : route_scope.
#[local] Open Scope route_scope.

Definition settle {A} (r : reply A) : completion A :=
  match r with
  | Resolved d => Normal d
  | Rejected e => Throw e
  end.

(** [axios.post(HISTORY_API_URL, data)]. *)
Definition post_history (data : HistoryRequest) : M HistoryData :=
  fun w =>
    match history_script w with
    | [] => None
    | r :: rest =>
        Some (settle r,
              {| history_script := rest; price_script := price_script w;
                 sent := (sent w ++ [PostHistory data])%list; clock := clock w |})
    end.

(** [axios.post(".../tokens/historical", body)]. *)
Definition post_price (body : PriceRequest) : M PriceData :=
  fun w =>
    match price_script w with
    | [] => None
    | r :: rest =>
        Some (settle r,
              {| history_script := history_script w; price_script := rest;
                 sent := (sent w ++ [PostPrice body])%list; clock := clock w |})
    end.

(** ** The route *)

(** The source comes in two versions that differ in the cursor of the
    history endpoint alone: the first reads and sends [before], the second
    [after]. *)
Inductive cursor_field := before_field | after_field.

Section Route.

Variable cursor_name : cursor_field.

Definition cursor_of (d : HistoryData) : value :=
  match cursor_name with
  | before_field => response_before d
  | after_field => response_after d
  end.

(** The payload of a page request: the cursor is set when it is truthy. *)
Definition history_payload (address : string) (cursor : value) : HistoryRequest :=
  let c := if truthy cursor then cursor else Undefined in
  {| addresses_address := address;
     addresses_networks := [NETWORK];
     limit := 50;
     data_before := match cursor_name with before_field => c | after_field => Undefined end;
     data_after := match cursor_name with before_field => Undefined | after_field => c end |}.

(** One turn of the [while (hasMore)] loop: the records and the cursor
    after it, and [hasMore]. *)
Definition fetch_page (address : string) (transactions : list TransactionRecord)
    (cursor : value) : M (list TransactionRecord * value * bool) :=
  let data := history_payload address cursor in
  try_catch
    (response <- post_history data ;;
     match response_transactions response with
     | Some (tx :: txs) =>
         let transactions' := (transactions ++ tx :: txs)%list in
         if truthy (cursor_of response)
         then ret (transactions', cursor_of response, true)
         else ret (transactions', cursor, false)
     | _ => ret (transactions, cursor, false)
     end)
    (fun error => throw error).

Fixpoint fetch_loop (turns : nat) (address : string)
    (transactions : list TransactionRecord) (cursor : value) : M (list TransactionRecord) :=
  match turns with
  | O => fun _ => None
  | S turns' =>
      r <- fetch_page address transactions cursor ;;
      let '(transactions', cursor', hasMore) := r in
      if hasMore then fetch_loop turns' address transactions' cursor'
      else ret transactions'
  end.

(** [fetchTransactionHistory(address)].  Every turn of the loop takes one
    answer of the history endpoint, so the loop makes no more turns than
    the endpoint has answers. *)
Definition fetchTransactionHistory (address : string) : M (list TransactionRecord) :=
  fun w => fetch_loop (S (List.length (history_script w))) address [] Undefined w.

End Route.

(** [fetchHistoricalETHPrice(timestamp)]: the price of the first point of
    the hour that starts at [timestamp], [None] (JavaScript's [null]) when
    the provider has no point for it. *)
Definition fetchHistoricalETHPrice (timestamp : value) : M (option number) :=
  let startDate := new_Date (ToNumber timestamp) in
  let endDate := new_Date (fadd (ToNumber timestamp) (number_of_Z 3600000)) in
  startTime <- lift (toISOString startDate) ;;
  endTime <- lift (toISOString endDate) ;;
  let body :=
    {| symbol := "ETH"; startTime := startTime; endTime := endTime; interval := "1h" |} in
  try_catch
    (response <- post_price body ;;
     match response with
     | Some (priceObj :: _) => ret (Some (parseFloat (point_value priceObj)))
     | _ => ret None
     end)
    (fun error => throw error).

(** An entry of [transactionCosts]. *)
Record TransactionCost := {
  cost_hash : value;
  cost_timestamp : value;
  costETH : number;
  costUSD : number
}.

(** The variables of [calculateTotalGasCost] that the loop updates. *)
Record totals := {
  totalGasCostWei : Z;
  totalGasCostETH : number;
  totalGasCostUSD : number;
  txCosts : list TransactionCost;
  lastValidPrice : option number
}.

Definition no_totals : totals :=
  {| totalGasCostWei := 0;
     totalGasCostETH := S754_zero false;
     totalGasCostUSD := S754_zero false;
     txCosts := [];
     lastValidPrice := None |}.

(** The end of the loop body: the three sums grow and an entry is pushed. *)
Definition account (tx : TransactionRecord) (txCostWei : Z) (txCostETH histPriceUSD : number)
    (lastValidPrice' : option number) (st : totals) : totals :=
  let txCostUSD := fmul txCostETH histPriceUSD in
  {| totalGasCostWei := totalGasCostWei st + txCostWei;
     totalGasCostETH := fadd (totalGasCostETH st) txCostETH;
     totalGasCostUSD := fadd (totalGasCostUSD st) txCostUSD;
     txCosts := (txCosts st ++ [{| cost_hash := hash tx;
                                   cost_timestamp := blockTimestamp tx;
                                   costETH := txCostETH;
                                   costUSD := txCostUSD |}])%list;
     lastValidPrice := lastValidPrice' |}.

(** The body of [for (const tx of transactions)]; [continue] and the
    [catch] clause leave the variables as they were. *)
Definition process_transaction (tx : TransactionRecord) (st : totals) : M totals :=
  let gasUsedValue := logical_or (gasUsed tx) (gas tx) in
  if negb (truthy gasUsedValue) then ret st
  else
    let gasPriceValue := logical_or (effectiveGasPrice tx) (gasPrice tx) in
    if negb (truthy gasPriceValue) then ret st
    else
      try_catch
        (gasUsedBig <- lift (BigInt gasUsedValue) ;;
         gasPriceBig <- lift (BigInt gasPriceValue) ;;
         let txCostWei := gasUsedBig * gasPriceBig in
         ether <- lift (formatEther txCostWei) ;;
         let txCostETH := parseFloat (String ether) in
         if negb (truthy (blockTimestamp tx)) then ret st
         else
           histPriceUSD <- fetchHistoricalETHPrice (blockTimestamp tx) ;;
           match histPriceUSD with
           | None =>
               match lastValidPrice st with
               | Some last => ret (account tx txCostWei txCostETH last (lastValidPrice st) st)
               | None => ret st
               end
           | Some price => ret (account tx txCostWei txCostETH price (Some price) st)
           end)
        (fun error => ret st).

Fixpoint for_of (transactions : list TransactionRecord) (st : totals) : M totals :=
  match transactions with
  | [] => ret st
  | tx :: rest => st' <- process_transaction tx st ;; for_of rest st'
  end.

(** The object [calculateTotalGasCost] returns. *)
Module AggregateResult.
Record t := {
  totalGasCostWei : string;
  totalGasCostETH : string;
  totalGasCostUSD : string;
  transactionCosts : list TransactionCost
}.
End AggregateResult.

Definition summary (st : totals) : AggregateResult.t :=
  {| AggregateResult.totalGasCostWei := BigInt_toString (totalGasCostWei st);
     AggregateResult.totalGasCostETH := Number_toString (totalGasCostETH st);
     AggregateResult.totalGasCostUSD := toFixed2 (totalGasCostUSD st);
     AggregateResult.transactionCosts := txCosts st |}.

(** The request of the route: the parameters of its query string. *)
Record Request := { searchParams : list (string * string) }.

(** [searchParams.get(name)]: the first value under the name, [None]
    (JavaScript's [null]) when there is none. *)
Fixpoint searchParams_get (name : string) (params : list (string * string)) : option string :=
  match params with
  | [] => None
  | (k, v) :: rest => if (k =? name)%string then Some v else searchParams_get name rest
  end.

(** The body of a response, before [JSON.stringify]. *)
Inductive Body :=
| ErrorBody (error : string)
| ResultBody (result : AggregateResult.t).

Record Response := { body : Body; status : Z }.

Section Aggregate.

Variable cursor_name : cursor_field.

(** [calculateTotalGasCost(address)]. *)
Definition calculateTotalGasCost (address : string) : M AggregateResult.t :=
  transactions <- fetchTransactionHistory cursor_name address ;;
  st <- for_of transactions no_totals ;;
  ret (summary st).

(** The [GET] handler. *)
Definition GET (request : Request) : M Response :=
  let address := searchParams_get "address" (searchParams request) in
  match address with
  | None | Some EmptyString =>
      ret {| body := ErrorBody "Missing address parameter"; status := 400 |}
  | Some address =>
      try_catch
        (result <- calculateTotalGasCost address ;;
         ret {| body := ResultBody result; status := 200 |})
        (fun error => ret {| body := ErrorBody (message error); status := 500 |})
  end.

End Aggregate.

(** ** Vocabulary of the properties *)

(** The quantities the loop body works with. *)
Definition gasUsedValue (tx : TransactionRecord) : value := logical_or (gasUsed tx) (gas tx).

Definition gasPriceValue (tx : TransactionRecord) : value :=
  logical_or (effectiveGasPrice tx) (gasPrice tx).

(** The cost of a transaction in wei, the product of its gas used and its
    gas price, when both are integers. *)
Definition wei_cost (tx : TransactionRecord) : option Z :=
  match BigInt (gasUsedValue tx), BigInt (gasPriceValue tx) with
  | Normal g, Normal p => Some (g * p)
  | _, _ => None
  end.

(** The cost in wei and in ether of a transaction that gets as far as the
    price lookup: both gas quantities and the time stamp are truthy, the
    quantities are integers and the cost fits ethers' fixed-point width. *)
Definition priced (tx : TransactionRecord) : option (Z * number) :=
  if truthy (gasUsedValue tx) && truthy (gasPriceValue tx) && truthy (blockTimestamp tx)
  then
    match wei_cost tx with
    | Some wei =>
        match formatEther wei with
        | Normal ether => Some (wei, parseFloat (String ether))
        | Throw _ => None
        end
    | None => None
    end
  else None.

(** A transaction with every falsy gas, price and time-stamp field taken
    out. *)
Definition absent_if_falsy (v : value) : value := if truthy v then v else Undefined.

Definition without_falsy_fields (tx : TransactionRecord) : TransactionRecord :=
  {| hash := hash tx;
     gasUsed := absent_if_falsy (gasUsed tx);
     gas := absent_if_falsy (gas tx);
     effectiveGasPrice := absent_if_falsy (effectiveGasPrice tx);
     gasPrice := absent_if_falsy (gasPrice tx);
     blockTimestamp := absent_if_falsy (blockTimestamp tx) |}.

(** A transaction the loop passes over: the variables and the world stay
    as they are. *)
Definition skipped (tx : TransactionRecord) : Prop :=
  forall st w, process_transaction tx st w = Some (Normal st, w).

(** The records of a page, none when the list is missing. *)
Definition records (d : HistoryData) : list TransactionRecord :=
  match response_transactions d with
  | Some l => l
  | None => []
  end.

(** A page after which the fetcher asks for another: it has records and a
    truthy cursor. *)
Definition continuing (c : cursor_field) (d : HistoryData) : bool :=
  match response_transactions d with
  | Some (_ :: _) => truthy (cursor_of c d)
  | _ => false
  end.

(** The page requests that follow the given pages: the first without a
    cursor, each later one with the cursor of the page before it. *)
Definition page_requests (c : cursor_field) (address : string) (pages : list HistoryData)
  : list request :=
  map PostHistory
    (map (history_payload c address) (Undefined :: map (cursor_of c) pages)).

(** The world after further answers of the history endpoint were taken. *)
Definition after_history (w : world) (rest : list (reply HistoryData)) (reqs : list request)
  : world :=
  {| history_script := rest; price_script := price_script w;
     sent := (sent w ++ reqs)%list; clock := clock w |}.

(** A selection of the elements of a list, in their order. *)
Inductive selection {A : Type} : list A -> list A -> Prop :=
| selection_nil : selection [] []
| selection_skip : forall x l k, selection k l -> selection k (x :: l)
| selection_keep : forall x l k, selection k l -> selection (x :: k) (x :: l).

(** The entry of [transactionCosts] is that of the transaction. *)
Definition entry_of (tx : TransactionRecord) (c : TransactionCost) : Prop :=
  cost_hash c = hash tx /\ cost_timestamp c = blockTimestamp tx /\
  exists wei, priced tx = Some (wei, costETH c).

Definition sum_Z (l : list Z) : Z := fold_right Z.add 0 l.

Definition wei_of (tx : TransactionRecord) : Z :=
  match wei_cost tx with
  | Some wei => wei
  | None => 0
  end.

(** A decimal text with exactly two digits after the point: an optional
    minus sign, one or more digits, a point, two digits. *)
Definition two_fraction_digits (s : string) : bool :=
  let s' := match s with String.String "-" r => r | _ => s end in
  match span_digits s' with
  | (String.String _ _, String.String "." f) =>
      match span_digits f with
      | (String.String _ (String.String _ EmptyString), EmptyString) => true
      | _ => false
      end
  | _ => false
  end.

(** A number [toFixed] renders in fixed notation: finite and below
    [10 ^ 21] in magnitude. *)
Definition fixed_range (x : number) : bool :=
  match x with
  | S754_zero _ => true
  | S754_finite _ m e => let (num, den) := fraction_of m e in num <? 10 ^ 21 * den
  | _ => false
  end.

(** Two worlds in which the providers answer alike. *)
Definition same_answers (w1 w2 : world) : Prop :=
  history_script w1 = history_script w2 /\ price_script w1 = price_script w2.

(** Two runs that end alike, in worlds whose providers go on alike. *)
Definition same_outcome {A} (r1 r2 : option (completion A * world)) : Prop :=
  match r1, r2 with
  | None, None => True
  | Some (c1, w1), Some (c2, w2) => c1 = c2 /\ same_answers w1 w2
  | _, _ => False
  end.

(** A computation whose outcome is settled by the answers of the two
    providers, whatever else the world holds. *)
Definition deterministic {A} (m : M A) : Prop :=
  forall w1 w2, same_answers w1 w2 -> same_outcome (m w1) (m w2).

(** Every character of a text passes a test. *)
Fixpoint string_forall (P : ascii -> bool) (s : string) : bool :=
  match s with
  | EmptyString => true
  | String.String c s' => P c && string_forall P s'
  end.

Definition not_space (c : ascii) : bool := negb (is_space c).

(** What a price lookup makes of the answer of the endpoint: the price of
    the first point, no price when there is no point, the error of a failed
    request. *)
Definition price_outcome (r : reply PriceData) : completion (option number) :=
  match r with
  | Resolved (Some (priceObj :: _)) => Normal (Some (parseFloat (point_value priceObj)))
  | Resolved _ => Normal None
  | Rejected e => Throw e
  end.

(** The world after answers of the price endpoint were taken. *)
Definition after_prices (w : world) (rest : list (reply PriceData)) (reqs : list request)
  : world :=
  {| history_script := history_script w; price_script := rest;
     sent := (sent w ++ reqs)%list; clock := clock w |}.

(** The transactions a run of the loop accounts, told from the
    transactions, the last valid price and the world it starts with: a
    transaction that gets as far as the price lookup is accounted when the
    lookup finds a price, which is the last valid price from then on, or
    when it finds none and there is a last valid price; every other
    transaction is passed over. *)
Fixpoint accounted (txs : list TransactionRecord) (slot : option number) (w : world)
  : list TransactionRecord :=
  match txs with
  | [] => []
  | tx :: rest =>
      match priced tx with
      | None => accounted rest slot w
      | Some _ =>
          match fetchHistoricalETHPrice (blockTimestamp tx) w with
          | Some (Normal (Some price), w') => tx :: accounted rest (Some price) w'
          | Some (Normal None, w') =>
              match slot with
              | Some _ => tx :: accounted rest slot w'
              | None => accounted rest slot w'
              end
          | Some (Throw _, w') => accounted rest slot w'
          | None => []
          end
      end
  end.


(** ** Sample data *)

Definition sample_tx (h g p t : string) : TransactionRecord :=
  {| hash := String h; gasUsed := String g; gas := Undefined;
     effectiveGasPrice := String p; gasPrice := Undefined; blockTimestamp := String t |}.

Definition tx_a : TransactionRecord := sample_tx "0xa" "21000" "20000000000" "1700000000000".
Definition tx_b : TransactionRecord := sample_tx "0xb" "21000" "30000000000" "1700000100000".
Definition tx_c : TransactionRecord := sample_tx "0xc" "50000" "10000000000" "1700000200000".

(** A record without gas used and gas. *)
Definition tx_no_gas : TransactionRecord :=
  {| hash := String "0xd"; gasUsed := Undefined; gas := Undefined;
     effectiveGasPrice := String "20000000000"; gasPrice := Undefined;
     blockTimestamp := String "1700000300000" |}.

(** A record whose gas used is the number 0 and whose gas is the empty
    string. *)
Definition tx_zero_gas : TransactionRecord :=
  {| hash := String "0xe"; gasUsed := Number (S754_zero false); gas := String "";
     effectiveGasPrice := String "20000000000"; gasPrice := Undefined;
     blockTimestamp := String "1700000300000" |}.

Definition price_point (s : string) : reply PriceData :=
  Resolved (Some [{| point_value := String s |}]).

Definition price_not_found : reply PriceData := Resolved (Some []).

Definition network_error : error := {| name := AxiosError; message := "Network Error" |}.

Definition sample_world (hs : list (reply HistoryData)) (ps : list (reply PriceData)) : world :=
  {| history_script := hs; price_script := ps; sent := []; clock := 1700000900000 |}.

Definition one_page (txs : list TransactionRecord) : list (reply HistoryData) :=
  [Resolved {| response_transactions := Some txs;
               response_before := Undefined; response_after := Undefined |}].

(** Three pages of 50, 50 and 10 records, the first two with a cursor. *)
Definition page_of (txs : list TransactionRecord) (cursor : value) : HistoryData :=
  {| response_transactions := Some txs; response_before := cursor; response_after := cursor |}.

Definition page_1 : HistoryData := page_of (repeat tx_a 50) (String "cursor-1").
Definition page_2 : HistoryData := page_of (repeat tx_b 50) (String "cursor-2").
Definition page_3 : HistoryData := page_of (repeat tx_c 10) Undefined.

(** What ends the run of the fetcher over continuing pages: a page that
    is not continuing, or a failed request. *)
Definition stops (c : cursor_field) (final : reply HistoryData) : Prop :=
  match final with
  | Resolved last => continuing c last = false
  | Rejected _ => True
  end.

Definition stop_result (acc : list TransactionRecord) (final : reply HistoryData)
  : completion (list TransactionRecord) :=
  match final with
  | Resolved last => Normal (acc ++ records last)%list
  | Rejected e => Throw e
  end.

Definition three_pages : world :=
  sample_world [Resolved page_1; Resolved page_2; Resolved page_3] [].

Definition failing_second_page : world :=
  sample_world [Resolved page_1; Rejected network_error; Resolved page_3]
               [price_point "2000.5"].

(** The price lookup of the first of two transactions fails. *)
Definition hard_error_world : world :=
  sample_world (one_page [tx_a; tx_b]) [Rejected network_error; price_point "2000.5"].

Definition price_request (start : Z) : request :=
  PostPrice {| symbol := "ETH"; startTime := start; endTime := start + 3600000;
               interval := "1h" |}.

Definition lookups (ps : list (reply PriceData)) (reqs : list request) : world :=
  {| history_script := []; price_script := ps; sent := reqs; clock := 1700000900000 |}.

(** Three transactions; the lookup of the first finds 2000.5, that of the
    second finds nothing. *)
Definition price_X : number := parseFloat (String "2000.5").

Definition after_tx_a : totals :=
  account tx_a 420000000000000 (parseFloat (String "0.00042")) price_X (Some price_X) no_totals.

(** A transaction whose gas used and gas price are beyond [2 ^ 53]. *)
Definition tx_big : TransactionRecord :=
  sample_tx "0xf" "18446744073709551617" "1000000000000000000000000000001" "1700000400000".

(** One transaction of one ether, priced at 10 USD. *)
Definition tx_one_ether : TransactionRecord :=
  sample_tx "0x1" "1000000000" "1000000000" "1700000000000".

Definition ten_dollar_world : world :=
  sample_world (one_page [tx_one_ether]) [price_point "10"].

Definition ten_dollar_result : AggregateResult.t :=
  {| AggregateResult.totalGasCostWei := "1000000000000000000";
     AggregateResult.totalGasCostETH := "1";
     AggregateResult.totalGasCostUSD := "10.00";
     AggregateResult.transactionCosts :=
       [{| cost_hash := String "0x1"; cost_timestamp := String "1700000000000";
           costETH := number_of_Z 1; costUSD := number_of_Z 10 |}] |}.

(** A price point without a [value]. *)
Definition no_value_world : world :=
  sample_world (one_page [tx_a]) [Resolved (Some [{| point_value := Undefined |}])].

(** A transaction of [10 ^ 21] ether, priced at 1 USD. *)
Definition tx_huge : TransactionRecord :=
  sample_tx "0x2" "1000000000000000000000" "1000000000000000000" "1700000000000".

Definition huge_world : world := sample_world (one_page [tx_huge]) [price_point "1"].

Definition usd_text (r : option (completion AggregateResult.t * world)) : option string :=
  match r with
  | Some (Normal a, _) => Some (AggregateResult.totalGasCostUSD a)
  | _ => None
  end.

(** ** Vocabulary of the further properties *)

(** A page request for an address: to the configured network, for at most
    50 records. *)
Definition history_request_for (address : string) (r : request) : Prop :=
  exists data,
    r = PostHistory data /\ addresses_address data = address /\
    addresses_networks data = [NETWORK] /\ limit data = 50.

(** A price request: for ETH, in buckets of one hour. *)
Definition hourly_eth_request (r : request) : Prop :=
  exists body, r = PostPrice body /\ symbol body = "ETH" /\ interval body = "1h".

(** An answer of the price endpoint that gives no price: no point, or a
    failed request. *)
Definition without_price (a : reply PriceData) : Prop :=
  forall price, price_outcome a <> Normal (Some price).

(** The result of a run that accounts nothing. *)
Definition empty_summary : AggregateResult.t :=
  {| AggregateResult.totalGasCostWei := "0";
     AggregateResult.totalGasCostETH := "0";
     AggregateResult.totalGasCostUSD := "0.00";
     AggregateResult.transactionCosts := [] |}.

(** A transaction with other nominal [gas] and [gasPrice] fields. *)
Definition with_nominal (tx : TransactionRecord) (gas' gasPrice' : value)
  : TransactionRecord :=
  {| hash := hash tx;
     gasUsed := gasUsed tx;
     gas := gas';
     effectiveGasPrice := effectiveGasPrice tx;
     gasPrice := gasPrice';
     blockTimestamp := blockTimestamp tx |}.

(** A record whose gas used is no integer, and one whose time stamp is an
    ISO-8601 text, no number of milliseconds. *)
Definition tx_fractional_gas : TransactionRecord :=
  sample_tx "0x3" "21000.5" "20000000000" "1700000000000".

Definition tx_iso_timestamp : TransactionRecord :=
  sample_tx "0x4" "21000" "20000000000" "2023-11-14T22:13:20.000Z".

(** A record with both gas fields and both gas-price fields. *)
Definition tx_both : TransactionRecord :=
  {| hash := String "0x5"; gasUsed := String "21000"; gas := String "30000";
     effectiveGasPrice := String "20000000000"; gasPrice := String "25000000000";
     blockTimestamp := String "1700000000000" |}.

(** The world after the run over [ten_dollar_world]. *)
Definition ten_dollar_after : world :=
  {| history_script := []; price_script := [];
     sent := [PostHistory (history_payload before_field "0xabc" Undefined);
              price_request 1700000000000];
     clock := 1700000900000 |}.

(** An address without transactions: the first page has an empty list. *)
Definition no_transactions_world : world :=
  sample_world (one_page []) [price_point "2000.5"].

(** Two transactions and a price endpoint that has no price for either. *)
Definition no_price_world : world :=
  sample_world (one_page [tx_a; tx_b]) [price_not_found; Rejected network_error].

Definition no_price_after : world :=
  {| history_script := []; price_script := [];
     sent := [PostHistory (history_payload before_field "0xabc" Undefined);
              price_request 1700000000000; price_request 1700000100000];
     clock := 1700000900000 |}.

(** The world before and after the lookup for the first transaction of
    [no_value_world]. *)
Definition no_value_lookup : world :=
  lookups [Resolved (Some [{| point_value := Undefined |}])] [].

(** The count of hundredths nearest to the magnitude of a finite number,
    the larger of two that are as near, and the sign [toFixed] writes. *)
Definition hundredths (x : number) : Z :=
  match x with
  | S754_finite _ m e => let (num, den) := fraction_of m e in (2 * num * 100 + den) / (2 * den)
  | _ => 0
  end.

Definition written_sign (x : number) : bool :=
  match x with
  | S754_finite neg _ _ => neg
  | _ => false
  end.

(** Totals whose sum in USD is the number nearest to 1.005. *)
Definition totals_1_005 : totals :=
  {| totalGasCostWei := 0;
     totalGasCostETH := S754_zero false;
     totalGasCostUSD := parseFloat (String "1.005");
     txCosts := [];
     lastValidPrice := None |}.

(** ** The page *)

(** The component [Home] of the page that calls the route: its five state
    variables, the handlers [handleSubmit] and [handleGenerateChart], and
    the events the rendered page lets through. The page fetches its own
    route, so the data of a response is one of the two bodies of the route,
    as [JSON.parse] gives back what [JSON.stringify] wrote. *)
Module Home.

(** An entry of [transactionCosts] as the page gets it. *)
Record Cost := {
  hash : value;
  timestamp : value;
  costETH : value;
  costUSD : value
}.

Record Summary := {
  totalGasCostWei : string;
  totalGasCostETH : string;
  totalGasCostUSD : string;
  transactionCosts : list Cost
}.

(** The data of a response: [{error}] or the summary. *)
Inductive Data :=
| ErrorData (error : string)
| ResultData (summary : Summary).

(** [data.error] and [result.transactionCosts]. *)
Definition data_error (d : Data) : value :=
  match d with
  | ErrorData error => String error
  | ResultData _ => Undefined
  end.

Definition data_transactionCosts (d : Data) : option (list Cost) :=
  match d with
  | ErrorData _ => None
  | ResultData r => Some (transactionCosts r)
  end.

(** A number through JSON: [null] when it is not finite, else the number
    its text reads as. *)
Definition json_number (x : number) : value :=
  match x with
  | S754_nan | S754_infinity _ => Null
  | _ => Number (StringToNumber (Number_toString x))
  end.

Definition json_value (v : value) : value :=
  match v with
  | Number x => json_number x
  | _ => v
  end.

Definition json_cost (c : TransactionCost) : Cost :=
  let '(Build_TransactionCost h t eth usd) := c in
  {| hash := json_value h;
     timestamp := json_value t;
     costETH := json_number eth;
     costUSD := json_number usd |}.

Definition json_body (b : Body) : Data :=
  match b with
  | ErrorBody error => ErrorData error
  | ResultBody r =>
      ResultData
        {| totalGasCostWei := AggregateResult.totalGasCostWei r;
           totalGasCostETH := AggregateResult.totalGasCostETH r;
           totalGasCostUSD := AggregateResult.totalGasCostUSD r;
           transactionCosts := map json_cost (AggregateResult.transactionCosts r) |}
  end.

(** What [fetch] and [response.json()] give: a rejection (no response, or
    a body that is no JSON), or [response.ok] and the data. *)
Inductive fetched :=
| NoData
| Answer (ok : bool) (data : Data).

(** The answer a response of the route is to the page: [ok] for a status
    from 200 to 299. *)
Definition answer_of (r : Response) : fetched :=
  Answer ((200 <=? status r) && (status r <=? 299)) (json_body (body r)).

(** The data of the chart; a label is the date whose local text it is. *)
Record Dataset := {
  label : string;
  data : list value;
  backgroundColor : string
}.

Record ChartData := {
  labels : list Date;
  datasets : list Dataset
}.

(** The state variables of the component. *)
Record Page := {
  address : string;
  loading : bool;
  result : option Data;
  chartData : option ChartData;
  error : value
}.

Definition initial : Page :=
  {| address := ""; loading := false; result := None; chartData := None;
     error := String "" |}.

Definition setAddress (a : string) (p : Page) : Page :=
  {| address := a; loading := loading p; result := result p;
     chartData := chartData p; error := error p |}.

Definition setLoading (b : bool) (p : Page) : Page :=
  {| address := address p; loading := b; result := result p;
     chartData := chartData p; error := error p |}.

Definition setResult (r : option Data) (p : Page) : Page :=
  {| address := address p; loading := loading p; result := r;
     chartData := chartData p; error := error p |}.

Definition setChartData (ch : option ChartData) (p : Page) : Page :=
  {| address := address p; loading := loading p; result := result p;
     chartData := ch; error := error p |}.

Definition setError (e : value) (p : Page) : Page :=
  {| address := address p; loading := loading p; result := result p;
     chartData := chartData p; error := e |}.

(** [handleSubmit] up to its [await]: the state, and the URL it fetches
    when it does not return before. *)
Definition handleSubmit_start (p : Page) : Page * option string :=
  let p1 := setChartData None (setResult None (setError (String "") p)) in
  match address p with
  | EmptyString => (p1, None)
  | a => (setLoading true p1, Some ("/api/calculateGas?address=" ++ a))
  end.

(** [handleSubmit] from its [await] on. *)
Definition handleSubmit_finish (answer : fetched) (p : Page) : Page :=
  let p1 :=
    match answer with
    | Answer true data => setResult (Some data) p
    | Answer false data =>
        setError (logical_or (data_error data) (String "Unknown error")) p
    | NoData => setError (String "Error fetching data") p
    end in
  setLoading false p1.

(** [handleSubmit], with the answer its request gets. *)
Definition handleSubmit (answer : fetched) (p : Page) : Page :=
  match handleSubmit_start p with
  | (p1, Some _) => handleSubmit_finish answer p1
  | (p1, None) => p1
  end.

Definition chart_of (costs : list Cost) : ChartData :=
  {| labels := map (fun tx => new_Date (ToNumber (timestamp tx))) costs;
     datasets :=
       [{| label := "Gas Cost (USD) per Transaction";
           data := map (fun tx => costUSD tx) costs;
           backgroundColor := "rgba(54, 162, 235, 0.5)" |}] |}.

(** [handleGenerateChart]. *)
Definition handleGenerateChart (p : Page) : Page :=
  match result p with
  | Some d =>
      match data_transactionCosts d with
      | Some (tx :: costs) => setChartData (Some (chart_of (tx :: costs))) p
      | _ => p
      end
  | None => p
  end.

(** What happens to the page: a change of the input, a submit of the form
    (its button is disabled while [loading]), the answer to a pending
    request, a click on "Generate Chart". *)
Inductive event :=
| Typed (text : string)
| Submitted
| Answered (answer : fetched)
| ChartClicked.

Definition step (p : Page) (ev : event) : Page :=
  match ev with
  | Typed text => setAddress text p
  | Submitted => if loading p then p else fst (handleSubmit_start p)
  | Answered answer => if loading p then handleSubmit_finish answer p else p
  | ChartClicked => handleGenerateChart p
  end.

(** The chart on the page is the chart of the result on the page, and a
    page that is loading shows neither. *)
Definition chart_of_result (p : Page) : Prop :=
  (loading p = true -> result p = None /\ chartData p = None) /\
  (forall ch, chartData p = Some ch ->
     exists r, result p = Some (ResultData r) /\
               transactionCosts r <> [] /\ ch = chart_of (transactionCosts r)).

End Home.

(** The sum of numbers as the loop forms it: from 0, left to right. *)
Definition float_sum (l : list number) : number := fold_left fadd l (S754_zero false).

(** A run over a transaction beyond [2 ^ 53], a record without gas, and
    a transaction whose lookup finds no price. *)
Definition big_world : world :=
  sample_world (one_page [tx_big; tx_no_gas; tx_a]) [price_point "2000.5"; price_not_found].

Definition big_result : AggregateResult.t :=
  {| AggregateResult.totalGasCostWei :=
       "18446744073709551617000000000018447164073709551617";
     AggregateResult.totalGasCostETH := "1.8446744073709552e+31";
     AggregateResult.totalGasCostUSD := "3.690271151945596e+34";
     AggregateResult.transactionCosts :=
       [{| cost_hash := String "0xf"; cost_timestamp := String "1700000400000";
           costETH :=
             parseFloat (String "18446744073709551617000000000018.446744073709551617");
           costUSD :=
             fmul (parseFloat
                     (String "18446744073709551617000000000018.446744073709551617"))
                  price_X |};
        {| cost_hash := String "0xa"; cost_timestamp := String "1700000000000";
           costETH := parseFloat (String "0.00042");
           costUSD := fmul (parseFloat (String "0.00042")) price_X |}] |}.

Definition big_after : world :=
  {| history_script := []; price_script := [];
     sent := [PostHistory (history_payload before_field "0xabc" Undefined);
              price_request 1700000400000; price_request 1700000000000];
     clock := 1700000900000 |}.

(** ** Facts of the run-time *)

(** *** Exact integers *)

Lemma rev_string_rev_string (s a b : string) :
  rev_string (rev_string s a) b = rev_string a (s ++ b).
Proof.
  revert a b; induction s as [|ch s IH]; intros a b; simpl; [reflexivity|].
  now rewrite IH.
Qed.

Lemma string_app_nil_r (s : string) : s ++ "" = s.
Proof. induction s as [|ch s IH]; simpl; [reflexivity|now rewrite IH]. Qed.

Lemma string_forall_rev (P : ascii -> bool) (s acc : string) :
  string_forall P s = true -> string_forall P acc = true ->
  string_forall P (rev_string s acc) = true.
Proof.
  revert acc; induction s as [|ch s IH]; intros acc Hs Hacc; simpl in *; [assumption|].
  apply andb_prop in Hs. destruct Hs as [Hc Hs].
  apply IH; [assumption|]. simpl. now rewrite Hc.
Qed.

Lemma trim_start_not_space (s : string) :
  string_forall not_space s = true -> trim_start s = s.
Proof.
  destruct s as [|ch s]; simpl; [reflexivity|].
  unfold not_space. intros H. apply andb_prop in H. destruct H as [Hc _].
  now destruct (is_space ch).
Qed.

(** A text without white space is its own trimming. *)
Lemma trim_not_space (s : string) :
  string_forall not_space s = true -> trim s = s.
Proof.
  intros H. unfold trim, trim_end. rewrite (trim_start_not_space s H).
  rewrite trim_start_not_space by (now apply string_forall_rev).
  rewrite rev_string_rev_string. simpl. apply string_app_nil_r.
Qed.

Lemma digits_not_space (d : uint) :
  string_forall not_space (NilEmpty.string_of_uint d) = true.
Proof. induction d; simpl; auto. Qed.

Lemma digits_start (d : uint) :
  d <> Nil ->
  exists ch rest, NilEmpty.string_of_uint d = String.String ch rest /\ is_digit ch = true.
Proof. destruct d; intros H; [now destruct H| ..]; simpl; eauto. Qed.

Lemma StringToBigInt_unsigned (ch : ascii) (rest : string) (n : N) :
  is_digit ch = true ->
  trim (String.String ch rest) = String.String ch rest ->
  decimal_digits (String.String ch rest) = Some n ->
  StringToBigInt (String.String ch rest) = Some (Z.of_N n).
Proof.
  intros Hd Htrim Hn. unfold StringToBigInt. rewrite Htrim.
  destruct ch as [[] [] [] [] [] [] [] []]; try discriminate Hd; now rewrite Hn.
Qed.

Lemma string_of_positive (p : positive) :
  NilZero.string_of_uint (Pos.to_uint p) = NilEmpty.string_of_uint (Pos.to_uint p).
Proof. pose proof (Unsigned.to_uint_nonnil p). now destruct (Pos.to_uint p). Qed.

Lemma decimal_digits_of_positive (p : positive) :
  decimal_digits (NilEmpty.string_of_uint (Pos.to_uint p)) = Some (Npos p).
Proof.
  unfold decimal_digits. rewrite <- string_of_positive.
  rewrite (NilZero.usu (Pos.to_uint p) (Unsigned.to_uint_nonnil p)).
  simpl. unfold N.of_uint. now rewrite Unsigned.of_to.
Qed.

(** Reading the decimal text of an integer gives the integer back,
    whatever its size. *)
Lemma StringToBigInt_toString (z : Z) :
  StringToBigInt (BigInt_toString z) = Some z.
Proof.
  destruct z as [|p|p]; [reflexivity| |].
  - unfold BigInt_toString. cbn [Z.to_int NilZero.string_of_int].
    rewrite string_of_positive.
    destruct (digits_start (Pos.to_uint p) (Unsigned.to_uint_nonnil p))
      as [ch [rest [Heq Hd]]].
    pose proof (digits_not_space (Pos.to_uint p)) as Hns.
    pose proof (decimal_digits_of_positive p) as Hn.
    rewrite Heq in *.
    now apply (StringToBigInt_unsigned ch rest (Npos p) Hd (trim_not_space _ Hns)).
  - unfold BigInt_toString. cbn [Z.to_int NilZero.string_of_int].
    rewrite string_of_positive. unfold StringToBigInt.
    rewrite trim_not_space by (simpl; apply digits_not_space).
    now rewrite decimal_digits_of_positive.
Qed.

Lemma BigInt_of_decimal (z : Z) :
  BigInt (String (BigInt_toString z)) = Normal z.
Proof. unfold BigInt. now rewrite StringToBigInt_toString. Qed.

(** *** Two fraction digits *)

Lemma string_forall_app (P : ascii -> bool) (a b : string) :
  string_forall P (a ++ b) = string_forall P a && string_forall P b.
Proof.
  induction a as [|ch a IH]; simpl; [reflexivity|]. now rewrite IH, andb_assoc.
Qed.

Lemma string_length_app (a b : string) :
  String.length (a ++ b) = (String.length a + String.length b)%nat.
Proof. induction a as [|ch a IH]; simpl; [reflexivity|]. now rewrite IH. Qed.

Lemma zeros_digits (n : nat) : string_forall is_digit (zeros n) = true.
Proof. induction n as [|n IH]; simpl; auto. Qed.

Lemma zeros_length (n : nat) : String.length (zeros n) = n.
Proof. induction n as [|n IH]; simpl; auto. Qed.

Lemma uint_digits (d : uint) : string_forall is_digit (NilEmpty.string_of_uint d) = true.
Proof. induction d; simpl; auto. Qed.

Lemma decimal_digits_only (n : N) : string_forall is_digit (decimal n) = true.
Proof.
  unfold decimal, NilZero.string_of_uint.
  destruct (N.to_uint n); try apply uint_digits. reflexivity.
Qed.

Lemma substring_forall (P : ascii -> bool) (s : string) :
  forall i n, string_forall P s = true -> string_forall P (substring i n s) = true.
Proof.
  induction s as [|ch s IH]; intros i n H.
  - destruct i, n; reflexivity.
  - simpl in H. apply andb_prop in H. destruct H as [Hc Hs].
    destruct i as [|i]; [destruct n as [|n]|]; simpl; auto.
    rewrite Hc. simpl. now apply IH.
Qed.

Lemma substring_length (s : string) :
  forall i n, (i + n <= String.length s)%nat -> String.length (substring i n s) = n.
Proof.
  induction s as [|ch s IH]; intros i n H; simpl in H.
  - destruct i, n; simpl; lia.
  - destruct i as [|i]; [destruct n as [|n]|]; simpl; auto.
    + rewrite (IH 0%nat n); lia.
    + apply IH. lia.
Qed.

Lemma span_digits_all (a : string) :
  string_forall is_digit a = true -> span_digits a = (a, EmptyString).
Proof.
  induction a as [|ch a IH]; simpl; [reflexivity|].
  intros H. apply andb_prop in H. destruct H as [Hc Ha].
  now rewrite Hc, (IH Ha).
Qed.

Lemma span_digits_until (a : string) (ch : ascii) (rest : string) :
  string_forall is_digit a = true -> is_digit ch = false ->
  span_digits (a ++ String.String ch rest) = (a, String.String ch rest).
Proof.
  induction a as [|d a IH]; simpl; intros Ha Hc.
  - now rewrite Hc.
  - apply andb_prop in Ha. destruct Ha as [Hd Ha]. now rewrite Hd, (IH Ha Hc).
Qed.

(** Digits, a point and two digits are a text with two fraction digits,
    with a minus sign before them or without. *)
Lemma two_fraction_digits_intro (neg : bool) (a b : string) :
  string_forall is_digit a = true -> a <> EmptyString ->
  string_forall is_digit b = true -> String.length b = 2%nat ->
  two_fraction_digits ((if neg then "-" else "") ++ a ++ "." ++ b) = true.
Proof.
  intros Ha Hne Hb Hlen.
  assert (Hbody : match span_digits (a ++ "." ++ b) with
                  | (String.String _ _, String.String "." f) =>
                      match span_digits f with
                      | (String.String _ (String.String _ EmptyString), EmptyString) => true
                      | _ => false
                      end
                  | _ => false
                  end = true).
  { change (a ++ "." ++ b) with (a ++ String.String "." b).
    rewrite (span_digits_until a "." b Ha eq_refl).
    destruct a as [|d a]; [now destruct Hne|].
    rewrite (span_digits_all b Hb).
    destruct b as [|c1 [|c2 [|c3 b]]]; try discriminate Hlen. reflexivity. }
  unfold two_fraction_digits. destruct neg.
  - exact Hbody.
  - destruct a as [|d a]; [now destruct Hne|].
    simpl in Ha. apply andb_prop in Ha. destruct Ha as [Hd _].
    change ("" ++ String.String d a ++ "." ++ b) with (String.String d (a ++ "." ++ b)) in *.
    destruct d as [[] [] [] [] [] [] [] []]; try discriminate Hd; exact Hbody.
Qed.

Lemma decimal_nonempty (n : N) : (1 <= String.length (decimal n))%nat.
Proof.
  unfold decimal, NilZero.string_of_uint.
  pose proof (DecimalN.Unsigned.of_to n) as Hn.
  destruct (N.to_uint n); simpl; lia.
Qed.

(** [toFixed(2)] of a number in the fixed range has two fraction
    digits. *)
Lemma toFixed2_fixed_range (x : number) :
  fixed_range x = true -> two_fraction_digits (toFixed2 x) = true.
Proof.
  destruct x as [s|s| |s m e]; try discriminate; [reflexivity|].
  unfold fixed_range, toFixed2. destruct (fraction_of m e) as [num den].
  intros Hr. apply Z.ltb_lt in Hr.
  destruct (10 ^ 21 * den <=? num) eqn:Hge; [apply Z.leb_le in Hge; lia|].
  set (m0 := decimal (Z.to_N ((2 * num * 100 + den) / (2 * den)))).
  set (m1 := zeros (3 - String.length m0) ++ m0).
  assert (Hm1 : string_forall is_digit m1 = true).
  { unfold m1. rewrite string_forall_app, zeros_digits. apply decimal_digits_only. }
  assert (Hlen : (3 <= String.length m1)%nat).
  { unfold m1. rewrite string_length_app, zeros_length.
    pose proof (decimal_nonempty (Z.to_N ((2 * num * 100 + den) / (2 * den)))).
    fold m0 in H. lia. }
  apply two_fraction_digits_intro.
  - now apply substring_forall.
  - intros Hempty.
    assert (Hl : String.length (substring 0 (String.length m1 - 2) m1) =
                 (String.length m1 - 2)%nat) by (apply substring_length; lia).
    rewrite Hempty in Hl. simpl in Hl. lia.
  - now apply substring_forall.
  - apply substring_length. lia.
Qed.

Lemma toFixed2_outside_fixed_range (x : number) :
  fixed_range x = false -> toFixed2 x = Number_toString x.
Proof.
  destruct x as [s|s| |s m e]; try discriminate; try reflexivity.
  unfold fixed_range, toFixed2, Number_toString.
  destruct (fraction_of m e) as [num den]. intros Hr. apply Z.ltb_ge in Hr.
  apply Z.leb_le in Hr. rewrite Hr. now destruct s.
Qed.

(** ** The history fetcher *)

Section Fetcher.

Variable c : cursor_field.
Variable address : string.

Lemma fetch_page_continuing (acc : list TransactionRecord) (cursor : value)
    (d : HistoryData) (rest : list (reply HistoryData)) (w : world) :
  continuing c d = true ->
  history_script w = Resolved d :: rest ->
  fetch_page c address acc cursor w =
    Some (Normal ((acc ++ records d)%list, cursor_of c d, true),
          after_history w rest [PostHistory (history_payload c address cursor)]).
Proof.
  intros Hc Hw. unfold fetch_page, try_catch, bind, post_history. rewrite Hw. simpl.
  unfold continuing in Hc. unfold records.
  destruct (response_transactions d) as [[|tx txs]|]; try discriminate.
  now rewrite Hc.
Qed.

Lemma fetch_page_stops (acc : list TransactionRecord) (cursor : value)
    (final : reply HistoryData) (rest : list (reply HistoryData)) (w : world) :
  stops c final ->
  history_script w = final :: rest ->
  exists cursor',
    fetch_page c address acc cursor w =
      Some (match stop_result acc final with
            | Normal l => Normal (l, cursor', false)
            | Throw e => Throw e
            end,
            after_history w rest [PostHistory (history_payload c address cursor)]).
Proof.
  intros Hs Hw. unfold fetch_page, try_catch, bind, post_history. rewrite Hw.
  destruct final as [last|e]; simpl.
  - unfold stops, continuing in Hs. unfold records.
    destruct (response_transactions last) as [[|tx txs]|].
    + exists cursor. now rewrite app_nil_r.
    + rewrite Hs. now exists cursor.
    + exists cursor. now rewrite app_nil_r.
  - now exists cursor.
Qed.

Lemma after_history_again (w : world) (mid rest : list (reply HistoryData))
    (r1 r2 : list request) :
  after_history (after_history w mid r1) rest r2 = after_history w rest (r1 ++ r2)%list.
Proof. unfold after_history. simpl. now rewrite app_assoc. Qed.

(** The loop over a run of continuing pages and the answer that ends it. *)
Lemma fetch_loop_run (pages : list HistoryData) :
  forall (final : reply HistoryData) (rest : list (reply HistoryData))
         (turns : nat) (acc : list TransactionRecord) (cursor : value) (w : world),
    Forall (fun d => continuing c d = true) pages ->
    stops c final ->
    history_script w = (map Resolved pages ++ final :: rest)%list ->
    (List.length pages < turns)%nat ->
    fetch_loop c turns address acc cursor w =
      Some (stop_result (acc ++ List.concat (map records pages))%list final,
            after_history w rest
              (map PostHistory
                 (map (history_payload c address) (cursor :: map (cursor_of c) pages)))).
Proof.
  induction pages as [|d pages IH]; intros final rest turns acc cursor w Hall Hs Hw Hlt.
  - destruct turns as [|turns]; [inversion Hlt|]. simpl in *.
    destruct (fetch_page_stops acc cursor final rest w Hs Hw) as [cursor' Hpage].
    unfold bind. rewrite Hpage, app_nil_r.
    destruct final as [last|e]; reflexivity.
  - destruct turns as [|turns]; [inversion Hlt|]. simpl in Hw, Hlt.
    inversion Hall as [|? ? Hd Hall']; subst.
    cbn [fetch_loop]. unfold bind.
    rewrite (fetch_page_continuing acc cursor d _ w Hd Hw).
    rewrite (IH final rest turns (acc ++ records d)%list (cursor_of c d)
               (after_history w (map Resolved pages ++ final :: rest)%list
                  [PostHistory (history_payload c address cursor)]) Hall' Hs eq_refl)
      by (apply PeanoNat.lt_S_n, Hlt).
    rewrite after_history_again. simpl. now rewrite <- app_assoc.
Qed.

(** A turn of the loop takes one answer of the endpoint. *)
Lemma fetch_page_takes_one (acc : list TransactionRecord) (cursor : value) (w : world)
    (r : completion (list TransactionRecord * value * bool)) (w' : world) :
  fetch_page c address acc cursor w = Some (r, w') ->
  List.length (history_script w) = S (List.length (history_script w')).
Proof.
  unfold fetch_page, try_catch, bind, post_history.
  destruct (history_script w) as [|a rest]; [discriminate|].
  destruct a as [d|e]; cbn.
  - destruct (response_transactions d) as [[|tx txs]|]; try (now intros [= _ <-]).
    destruct (truthy (cursor_of c d)); now intros [= _ <-].
  - now intros [= _ <-].
Qed.

(** More turns than the endpoint has answers change nothing: the bound on
    the turns in [fetchTransactionHistory] is never what ends the loop. *)
Lemma fetch_loop_turns (turns : nat) :
  forall (acc : list TransactionRecord) (cursor : value) (w : world),
    (List.length (history_script w) < turns)%nat ->
    fetch_loop c (S turns) address acc cursor w = fetch_loop c turns address acc cursor w.
Proof.
  induction turns as [|turns IH]; intros acc cursor w Hlt; [inversion Hlt|].
  cbn [fetch_loop]. unfold bind.
  destruct (fetch_page c address acc cursor w) as [[[[[acc' cursor'] hasMore]|e] w']|] eqn:Hpage;
    try reflexivity.
  destruct hasMore; [|reflexivity].
  apply fetch_page_takes_one in Hpage. apply IH. lia.
Qed.




(** A failed page request ends the fetch with the error of the request. *)
Lemma fetch_failure (pages : list HistoryData) (e : error)
    (rest : list (reply HistoryData)) (w : world) :
  Forall (fun d => continuing c d = true) pages ->
  history_script w = (map Resolved pages ++ Rejected e :: rest)%list ->
  fetchTransactionHistory c address w =
    Some (Throw e, after_history w rest (page_requests c address pages)).
Proof.
  intros Hall Hw. unfold fetchTransactionHistory.
  rewrite (fetch_loop_run pages (Rejected e) rest _ [] Undefined w Hall I Hw).
  - reflexivity.
  - rewrite Hw, length_app, length_map. simpl. lia.
Qed.

End Fetcher.


(** C5. When a page request fails, whatever pages came before it, the
    fetch ends with the error of that request and returns no records; the
    aggregation ends with the same error without a price lookup; and the
    handler answers with status 500 and the message of the error, nothing
    else. *)
Theorem history_failure_aborts (c : cursor_field) (address : string)
    (pages : list HistoryData) (e : error) (rest : list (reply HistoryData)) (w : world) :
  Forall (fun d => continuing c d = true) pages ->
  history_script w = (map Resolved pages ++ Rejected e :: rest)%list ->
  address <> "" ->
  let w' := after_history w rest (page_requests c address pages) in
  fetchTransactionHistory c address w = Some (Throw e, w') /\
  calculateTotalGasCost c address w = Some (Throw e, w') /\
  GET c {| searchParams := [("address", address)] |} w =
    Some (Normal {| body := ErrorBody (message e); status := 500 |}, w').
Proof.
  intros Hall Hw Haddr w'.
  pose proof (fetch_failure c address pages e rest w Hall Hw) as Hfetch.
  assert (Hcalc : calculateTotalGasCost c address w = Some (Throw e, w')).
  { unfold calculateTotalGasCost, bind. now rewrite Hfetch. }
  repeat split; auto.
  unfold GET. simpl. destruct address as [|a address']; [contradiction|].
  unfold try_catch, bind. now rewrite Hcalc.
Qed.

Lemma history_failure_aborts_witness :
  GET before_field {| searchParams := [("address", "0xabc")] |} failing_second_page =
    Some (Normal {| body := ErrorBody "Network Error"; status := 500 |},
          after_history failing_second_page [Resolved page_3]
            (page_requests before_field "0xabc" [page_1])).
Proof.
  refine (proj2 (proj2 (history_failure_aborts before_field "0xabc" [page_1] network_error
                          [Resolved page_3] failing_second_page _ _ _))).
  - repeat constructor.
  - reflexivity.
  - discriminate.
Defined.

(** ** The loop over the transactions *)

Lemma for_of_app (l1 l2 : list TransactionRecord) (st : totals) (w : world) :
  for_of (l1 ++ l2)%list st w = (st' <- for_of l1 st ;; for_of l2 st') w.
Proof.
  revert st w; induction l1 as [|tx l1 IH]; intros st w; simpl.
  - reflexivity.
  - unfold bind in *.
    destruct (process_transaction tx st w) as [[[st'|e] w']|]; auto.
Qed.

Lemma skipped_for_of (tx : TransactionRecord) :
  skipped tx ->
  forall pre post st w,
    for_of (pre ++ tx :: post)%list st w = for_of (pre ++ post)%list st w.
Proof.
  intros Hskip pre post st w. rewrite !for_of_app. unfold bind.
  destruct (for_of pre st w) as [[[st'|e] w']|]; auto.
  simpl. unfold bind. now rewrite Hskip.
Qed.

(** Without a truthy time stamp the body ends before the price lookup,
    whatever the conversions before it do. *)
Lemma falsy_timestamp_skipped (tx : TransactionRecord) :
  truthy (blockTimestamp tx) = false -> skipped tx.
Proof.
  intros Hts st w. unfold process_transaction.
  destruct (truthy (logical_or (gasUsed tx) (gas tx))); simpl; auto.
  destruct (truthy (logical_or (effectiveGasPrice tx) (gasPrice tx))); simpl; auto.
  unfold try_catch, bind.
  destruct (BigInt (logical_or (gasUsed tx) (gas tx))) as [g|e]; cbn; auto.
  destruct (BigInt (logical_or (effectiveGasPrice tx) (gasPrice tx))) as [p|e]; cbn; auto.
  destruct (formatEther (g * p)) as [ether|e]; cbn; auto.
  now rewrite Hts.
Qed.

Lemma falsy_gas_skipped (tx : TransactionRecord) :
  truthy (gasUsed tx) = false -> truthy (gas tx) = false -> skipped tx.
Proof.
  intros H1 H2 st w. unfold process_transaction, logical_or. now rewrite H1, H2.
Qed.

Lemma falsy_price_skipped (tx : TransactionRecord) :
  truthy (effectiveGasPrice tx) = false -> truthy (gasPrice tx) = false -> skipped tx.
Proof.
  intros H1 H2 st w. unfold process_transaction.
  destruct (truthy (logical_or (gasUsed tx) (gas tx))); simpl; auto.
  unfold logical_or. now rewrite H1, H2.
Qed.

Lemma logical_or_absent_if_falsy (a b : value) :
  logical_or (absent_if_falsy a) (absent_if_falsy b) = absent_if_falsy (logical_or a b).
Proof.
  unfold logical_or, absent_if_falsy.
  destruct (truthy a) eqn:Ha; [now rewrite Ha|]. simpl.
  destruct (truthy b) eqn:Hb; [reflexivity|]. reflexivity.
Qed.

Lemma truthy_absent_if_falsy (v : value) :
  truthy (absent_if_falsy v) = truthy v.
Proof. unfold absent_if_falsy. now destruct (truthy v) eqn:H. Qed.

Lemma absent_if_falsy_truthy (v : value) :
  truthy v = true -> absent_if_falsy v = v.
Proof. unfold absent_if_falsy. now intros ->. Qed.

(** A falsy field counts as a missing one: taking the falsy fields out of
    a transaction changes nothing of what the body does with it. *)
Lemma process_without_falsy_fields (tx : TransactionRecord) (st : totals) (w : world) :
  process_transaction (without_falsy_fields tx) st w = process_transaction tx st w.
Proof.
  unfold process_transaction.
  cbn [without_falsy_fields gasUsed gas effectiveGasPrice gasPrice blockTimestamp hash].
  rewrite !logical_or_absent_if_falsy, !truthy_absent_if_falsy.
  destruct (truthy (logical_or (gasUsed tx) (gas tx))) eqn:Hg; simpl; auto.
  destruct (truthy (logical_or (effectiveGasPrice tx) (gasPrice tx))) eqn:Hp; simpl; auto.
  rewrite !absent_if_falsy_truthy by assumption.
  destruct (truthy (blockTimestamp tx)) eqn:Hts.
  - unfold account. cbn [hash blockTimestamp without_falsy_fields].
    rewrite ?(absent_if_falsy_truthy (blockTimestamp tx)) by assumption.
    reflexivity.
  - reflexivity.
Qed.

(** C6. A transaction that misses both the gas-used and the gas field, or
    both gas-price fields, or the block time stamp, is passed over: the
    three totals, the list of costs and the last valid price stay as they
    were, no request is sent for it, and the batch gives what it gives
    without that transaction. *)
Theorem missing_field_skip (tx : TransactionRecord) :
  (gasUsed tx = Undefined /\ gas tx = Undefined) \/
  (effectiveGasPrice tx = Undefined /\ gasPrice tx = Undefined) \/
  blockTimestamp tx = Undefined ->
  (forall st w, process_transaction tx st w = Some (Normal st, w)) /\
  (forall pre post st w,
      for_of (pre ++ tx :: post)%list st w = for_of (pre ++ post)%list st w).
Proof.
  intros H.
  assert (Hskip : skipped tx).
  { destruct H as [[H1 H2]|[[H1 H2]|H]].
    - apply falsy_gas_skipped; [rewrite H1|rewrite H2]; reflexivity.
    - apply falsy_price_skipped; [rewrite H1|rewrite H2]; reflexivity.
    - apply falsy_timestamp_skipped. now rewrite H. }
  split; [exact Hskip|]. now apply skipped_for_of.
Qed.

Lemma missing_field_skip_witness :
  for_of ([tx_a] ++ tx_no_gas :: [tx_b])%list no_totals
         (sample_world [] [price_point "2000.5"; price_point "2001"]) =
  for_of ([tx_a] ++ [tx_b])%list no_totals
         (sample_world [] [price_point "2000.5"; price_point "2001"]).
Proof.
  apply (proj2 (missing_field_skip tx_no_gas (or_introl (conj eq_refl eq_refl)))).
Defined.

(** C10. Presence of a field is its truthiness: a transaction whose
    gas-used and gas fields are both falsy (0, the empty string, ...), or
    whose two gas-price fields are, or whose block time stamp is, is passed
    over like one that misses them; and a falsy field is treated as a
    missing one throughout. *)
Theorem falsy_field_skip (tx : TransactionRecord) :
  (truthy (gasUsed tx) = false /\ truthy (gas tx) = false) \/
  (truthy (effectiveGasPrice tx) = false /\ truthy (gasPrice tx) = false) \/
  truthy (blockTimestamp tx) = false ->
  (forall st w, process_transaction tx st w = Some (Normal st, w)) /\
  (forall pre post st w,
      for_of (pre ++ tx :: post)%list st w = for_of (pre ++ post)%list st w) /\
  (forall st w,
      process_transaction tx st w = process_transaction (without_falsy_fields tx) st w).
Proof.
  intros H.
  assert (Hskip : skipped tx).
  { destruct H as [[H1 H2]|[[H1 H2]|H]].
    - now apply falsy_gas_skipped.
    - now apply falsy_price_skipped.
    - now apply falsy_timestamp_skipped. }
  split; [exact Hskip|]. split; [now apply skipped_for_of|].
  intros st w. symmetry. apply process_without_falsy_fields.
Qed.

Lemma falsy_field_skip_witness :
  for_of ([tx_a] ++ tx_zero_gas :: [tx_b])%list no_totals
         (sample_world [] [price_point "2000.5"; price_point "2001"]) =
  for_of ([tx_a] ++ [tx_b])%list no_totals
         (sample_world [] [price_point "2000.5"; price_point "2001"]).
Proof.
  apply (proj1 (proj2 (falsy_field_skip tx_zero_gas (or_introl (conj eq_refl eq_refl))))).
Defined.

(** ** The loop body, case by case *)

(** A transaction that does not get as far as the price lookup is passed
    over. *)
Lemma process_not_priced (tx : TransactionRecord) :
  priced tx = None -> skipped tx.
Proof.
  intros Hp st w. unfold priced, wei_cost, gasUsedValue, gasPriceValue in Hp.
  unfold process_transaction.
  destruct (truthy (logical_or (gasUsed tx) (gas tx))); cbn [negb andb]; auto.
  destruct (truthy (logical_or (effectiveGasPrice tx) (gasPrice tx))); cbn [negb andb]; auto.
  unfold try_catch, bind.
  destruct (BigInt (logical_or (gasUsed tx) (gas tx))) as [g|e]; cbn [lift ret throw]; auto.
  destruct (BigInt (logical_or (effectiveGasPrice tx) (gasPrice tx))) as [p|e];
    cbn [lift ret throw]; auto.
  destruct (formatEther (g * p)) as [ether|e]; cbn [lift ret throw]; auto.
  destruct (truthy (blockTimestamp tx)); cbn [negb andb] in *; [discriminate|reflexivity].
Qed.

(** A transaction that gets as far as the price lookup: what the body
    does with each outcome of the lookup. *)
Lemma process_priced (tx : TransactionRecord) (wei : Z) (eth : number)
    (st : totals) (w : world) :
  priced tx = Some (wei, eth) ->
  process_transaction tx st w =
    match fetchHistoricalETHPrice (blockTimestamp tx) w with
    | None => None
    | Some (Throw _, w') => Some (Normal st, w')
    | Some (Normal None, w') =>
        Some (Normal match lastValidPrice st with
                     | Some last => account tx wei eth last (lastValidPrice st) st
                     | None => st
                     end, w')
    | Some (Normal (Some price), w') =>
        Some (Normal (account tx wei eth price (Some price) st), w')
    end.
Proof.
  intros Hp. unfold priced, wei_cost, gasUsedValue, gasPriceValue in Hp.
  unfold process_transaction.
  destruct (truthy (logical_or (gasUsed tx) (gas tx))); cbn [negb andb] in *; [|discriminate].
  destruct (truthy (logical_or (effectiveGasPrice tx) (gasPrice tx)));
    cbn [negb andb] in *; [|discriminate].
  destruct (truthy (blockTimestamp tx)); cbn [negb andb] in *; [|discriminate].
  unfold try_catch, bind.
  destruct (BigInt (logical_or (gasUsed tx) (gas tx))) as [g|e]; [|discriminate].
  destruct (BigInt (logical_or (effectiveGasPrice tx) (gasPrice tx))) as [p|e]; [|discriminate].
  cbn [lift ret throw]. destruct (formatEther (g * p)) as [ether|e]; [|discriminate].
  injection Hp as <- <-. cbn [lift ret throw].
  destruct (fetchHistoricalETHPrice (blockTimestamp tx) w) as [[[[price|]|e] w']|]; auto.
  destruct (lastValidPrice st); reflexivity.
Qed.

(** The price lookup for a time stamp whose hour is a valid span of
    dates: one request, and the outcome of its answer. *)
Lemma lookup_valid (timestamp : value) (t1 t2 : Z) (w : world) :
  new_Date (ToNumber timestamp) = Some t1 ->
  new_Date (fadd (ToNumber timestamp) (number_of_Z 3600000)) = Some t2 ->
  fetchHistoricalETHPrice timestamp w =
    match price_script w with
    | [] => None
    | r :: rest =>
        Some (price_outcome r,
              after_prices w rest
                [PostPrice {| symbol := "ETH"; startTime := t1; endTime := t2;
                              interval := "1h" |}])
    end.
Proof.
  intros H1 H2. unfold fetchHistoricalETHPrice. rewrite H1, H2.
  unfold try_catch, bind, post_price. cbn [toISOString lift ret].
  destruct (price_script w) as [|r rest]; [reflexivity|].
  destruct r as [[[|priceObj points]|]|e]; reflexivity.
Qed.

(** The price lookup for any other time stamp: a RangeError and no
    request. *)
Lemma lookup_invalid (timestamp : value) (w : world) :
  new_Date (ToNumber timestamp) = None \/
  new_Date (fadd (ToNumber timestamp) (number_of_Z 3600000)) = None ->
  fetchHistoricalETHPrice timestamp w = Some (Throw (raised RangeError), w).
Proof.
  intros H. unfold fetchHistoricalETHPrice.
  destruct (new_Date (ToNumber timestamp)) as [t1|]; [|reflexivity].
  destruct H as [H|H]; [discriminate|]. now rewrite H.
Qed.

(** A lookup takes at most one answer of the price endpoint, and returns
    or throws when there is one. *)
Lemma lookup_completes (timestamp : value) (w : world) :
  price_script w <> [] ->
  exists r w',
    fetchHistoricalETHPrice timestamp w = Some (r, w') /\
    (List.length (price_script w) <= S (List.length (price_script w')))%nat.
Proof.
  intros Hne.
  destruct (new_Date (ToNumber timestamp)) as [t1|] eqn:H1;
    [destruct (new_Date (fadd (ToNumber timestamp) (number_of_Z 3600000))) as [t2|] eqn:H2|].
  - rewrite (lookup_valid timestamp t1 t2 w H1 H2).
    destruct (price_script w) as [|r rest]; [now destruct Hne|].
    eexists _, _. split; [reflexivity|]. simpl. lia.
  - rewrite (lookup_invalid timestamp w (or_intror H2)). eexists _, _. split; [reflexivity|]. lia.
  - rewrite (lookup_invalid timestamp w (or_introl H1)). eexists _, _. split; [reflexivity|]. lia.
Qed.

(** The body never throws. *)
Lemma process_transaction_returns (tx : TransactionRecord) (st : totals) (w : world) :
  forall e w', process_transaction tx st w <> Some (Throw e, w').
Proof.
  intros e w'. destruct (priced tx) as [[wei eth]|] eqn:Hp.
  - rewrite (process_priced tx wei eth st w Hp).
    destruct (fetchHistoricalETHPrice (blockTimestamp tx) w) as [[[[price|]|e0] w0]|];
      discriminate.
  - now rewrite (process_not_priced tx Hp st w).
Qed.

Lemma for_of_returns (txs : list TransactionRecord) :
  forall st w e w', for_of txs st w <> Some (Throw e, w').
Proof.
  induction txs as [|tx txs IH]; intros st w e w'; simpl; [discriminate|].
  unfold bind.
  destruct (process_transaction tx st w) as [[[st1|e1] w1]|] eqn:Hstep;
    [apply IH| |discriminate].
  now apply process_transaction_returns in Hstep.
Qed.

(** With an answer of the price endpoint for every transaction, the
    loop returns. *)
Lemma process_transaction_completes (tx : TransactionRecord) (st : totals) (w : world) :
  price_script w <> [] ->
  exists st' w',
    process_transaction tx st w = Some (Normal st', w') /\
    (List.length (price_script w) <= S (List.length (price_script w')))%nat.
Proof.
  intros Hne. destruct (priced tx) as [[wei eth]|] eqn:Hp.
  - rewrite (process_priced tx wei eth st w Hp).
    destruct (lookup_completes (blockTimestamp tx) w Hne) as [r [w' [-> Hlen]]].
    destruct r as [[price|]|e]; eexists _, _; split; try reflexivity; exact Hlen.
  - rewrite (process_not_priced tx Hp st w). eexists _, _. split; [reflexivity|]. lia.
Qed.

Lemma for_of_completes (txs : list TransactionRecord) :
  forall st w,
    (List.length txs <= List.length (price_script w))%nat ->
    exists st' w', for_of txs st w = Some (Normal st', w').
Proof.
  induction txs as [|tx txs IH]; intros st w Hlen; simpl in *.
  - now eexists _, _.
  - assert (Hne : price_script w <> [])
      by (destruct (price_script w); [simpl in Hlen; lia|discriminate]).
    destruct (process_transaction_completes tx st w Hne) as [st1 [w1 [Hstep Hlen1]]].
    unfold bind. rewrite Hstep. apply IH. lia.
Qed.

(** The aggregation throws only what the history fetch throws. *)
Lemma calculateTotalGasCost_throws (c : cursor_field) (address : string) (w : world)
    (e : error) (w' : world) :
  calculateTotalGasCost c address w = Some (Throw e, w') ->
  fetchTransactionHistory c address w = Some (Throw e, w').
Proof.
  unfold calculateTotalGasCost, bind.
  destruct (fetchTransactionHistory c address w) as [[[txs|e0] w0]|];
    try discriminate.
  - destruct (for_of txs no_totals w0) as [[[st|e1] w1]|] eqn:Hloop;
      cbn; try discriminate.
    now apply for_of_returns in Hloop.
  - now intros [= -> ->].
Qed.

(** C1, as the code has it. A hard error of the price lookup does not
    end the aggregation: the handler around the loop body catches it; the
    transaction is passed over (the totals, the list of costs and the last
    valid price stay as they were) and the loop goes on with the next
    transaction; it throws nothing, and it returns when the price endpoint
    answers for the transactions that remain. *)
Theorem hard_price_error_skips (tx : TransactionRecord) (wei : Z) (eth : number)
    (st : totals) (w : world) (e : error) (w' : world) :
  priced tx = Some (wei, eth) ->
  fetchHistoricalETHPrice (blockTimestamp tx) w = Some (Throw e, w') ->
  process_transaction tx st w = Some (Normal st, w') /\
  (forall rest, for_of (tx :: rest) st w = for_of rest st w') /\
  (forall rest e' w'', for_of (tx :: rest) st w <> Some (Throw e', w'')) /\
  (forall rest,
      (List.length rest <= List.length (price_script w'))%nat ->
      exists st' w'', for_of (tx :: rest) st w = Some (Normal st', w'')).
Proof.
  intros Hp Hfetch.
  assert (Hstep : process_transaction tx st w = Some (Normal st, w')).
  { rewrite (process_priced tx wei eth st w Hp). now rewrite Hfetch. }
  assert (Hnext : forall rest, for_of (tx :: rest) st w = for_of rest st w').
  { intros rest. simpl. unfold bind. now rewrite Hstep. }
  split; [exact Hstep|]. split; [exact Hnext|]. split.
  - intros rest e' w''. apply for_of_returns.
  - intros rest Hlen. rewrite Hnext. now apply for_of_completes.
Qed.

Lemma hard_price_error_skips_witness :
  process_transaction tx_a no_totals
      (lookups [Rejected network_error; price_point "2000.5"] []) =
    Some (Normal no_totals,
          lookups [price_point "2000.5"] [price_request 1700000000000]).
Proof.
  refine (proj1 (hard_price_error_skips tx_a 420000000000000 (parseFloat (String "0.00042"))
                   no_totals (lookups [Rejected network_error; price_point "2000.5"] [])
                   network_error
                   (lookups [price_point "2000.5"] [price_request 1700000000000]) _ _));
    vm_compute; reflexivity.
Defined.

(** C1 as the specification states it fails: the price lookup of the first
    transaction is rejected, and the aggregation returns a result all the
    same, with the second transaction in it. *)
Lemma hard_price_error_counterexample :
  price_script hard_error_world = [Rejected network_error; price_point "2000.5"] /\
  option_map fst (calculateTotalGasCost before_field "0xabc" hard_error_world) =
    Some (Normal
            {| AggregateResult.totalGasCostWei := "630000000000000";
               AggregateResult.totalGasCostETH := "0.00063";
               AggregateResult.totalGasCostUSD := "1.26";
               AggregateResult.transactionCosts :=
                 [{| cost_hash := String "0xb";
                     cost_timestamp := String "1700000100000";
                     costETH := parseFloat (String "0.00063");
                     costUSD := fmul (parseFloat (String "0.00063")) price_X |}] |}).
Proof. split; vm_compute; reflexivity. Qed.

(** C3. When the price lookup of a transaction finds no price: with a
    last valid price [X] the transaction is accounted at [X] and [X] stays
    the last valid price; without one the transaction is passed over. The
    last valid price is none at the start of a run, becomes the price of
    every lookup that finds one, and is kept by every other transaction. *)
Theorem fallback_price (tx : TransactionRecord) (wei : Z) (eth : number)
    (st : totals) (w w' : world) :
  priced tx = Some (wei, eth) ->
  fetchHistoricalETHPrice (blockTimestamp tx) w = Some (Normal None, w') ->
  (forall X, lastValidPrice st = Some X ->
     process_transaction tx st w = Some (Normal (account tx wei eth X (Some X) st), w') /\
     costUSD (List.last (txCosts (account tx wei eth X (Some X) st))
                        {| cost_hash := Undefined; cost_timestamp := Undefined;
                           costETH := NaN; costUSD := NaN |}) = fmul eth X) /\
  (lastValidPrice st = None -> process_transaction tx st w = Some (Normal st, w')) /\
  lastValidPrice no_totals = None /\
  (forall tx0 st0 w0 st1 w1,
     process_transaction tx0 st0 w0 = Some (Normal st1, w1) ->
     lastValidPrice st1 =
       match priced tx0, fetchHistoricalETHPrice (blockTimestamp tx0) w0 with
       | Some _, Some (Normal (Some price), _) => Some price
       | _, _ => lastValidPrice st0
       end).
Proof.
  intros Hp Hfetch.
  pose proof (process_priced tx wei eth st w Hp) as Hstep. rewrite Hfetch in Hstep.
  split; [|split; [|split]].
  - intros X HX. rewrite HX in Hstep. split; [exact Hstep|].
    unfold account. cbn [txCosts]. rewrite last_last. reflexivity.
  - intros HX. now rewrite HX in Hstep.
  - reflexivity.
  - intros tx0 st0 w0 st1 w1 H0.
    destruct (priced tx0) as [[wei0 eth0]|] eqn:Hp0.
    + rewrite (process_priced tx0 wei0 eth0 st0 w0 Hp0) in H0.
      destruct (fetchHistoricalETHPrice (blockTimestamp tx0) w0)
        as [[[[price|]|e0] w2]|]; try discriminate.
      * now injection H0 as <- _.
      * injection H0 as <- _. now destruct (lastValidPrice st0) eqn:Hslot.
      * now injection H0 as <- _.
    + rewrite (process_not_priced tx0 Hp0 st0 w0) in H0. now injection H0 as <- _.
Qed.

Lemma fallback_price_witness :
  process_transaction tx_b after_tx_a
      (lookups [price_not_found; price_point "2100"] [price_request 1700000000000]) =
    Some (Normal (account tx_b 630000000000000 (parseFloat (String "0.00063"))
                    price_X (Some price_X) after_tx_a),
          lookups [price_point "2100"]
                  [price_request 1700000000000; price_request 1700000100000]).
Proof.
  refine (proj1 (proj1 (fallback_price tx_b 630000000000000 (parseFloat (String "0.00063"))
                          after_tx_a
                          (lookups [price_not_found; price_point "2100"]
                                   [price_request 1700000000000])
                          (lookups [price_point "2100"]
                                   [price_request 1700000000000; price_request 1700000100000])
                          _ _) price_X _));
    vm_compute; reflexivity.
Defined.

(** The two runs of the specification's test: with a price for the first
    transaction the second is accounted at that price; without one both are
    passed over and only the third is accounted. *)
Example fallback_after_resolved :
  option_map (fun r => match fst r with
                       | Normal st => map costUSD (txCosts st)
                       | Throw _ => []
                       end)
    (for_of [tx_a; tx_b; tx_c] no_totals
       (lookups [price_point "2000.5"; price_not_found; price_point "2100"] [])) =
  Some [fmul (parseFloat (String "0.00042")) price_X;
        fmul (parseFloat (String "0.00063")) price_X;
        fmul (parseFloat (String "0.0005")) (parseFloat (String "2100"))].
Proof. vm_compute. reflexivity. Qed.

Example fallback_without_price :
  option_map (fun r => match fst r with
                       | Normal st => map cost_hash (txCosts st)
                       | Throw _ => []
                       end)
    (for_of [tx_a; tx_b; tx_c] no_totals
       (lookups [price_not_found; price_not_found; price_point "2100"] [])) =
  Some [String "0xc"].
Proof. vm_compute. reflexivity. Qed.

(** ** The total in wei *)

Lemma priced_wei (tx : TransactionRecord) (wei : Z) (eth : number) :
  priced tx = Some (wei, eth) -> wei_cost tx = Some wei.
Proof.
  unfold priced.
  destruct (truthy (gasUsedValue tx) && truthy (gasPriceValue tx) && truthy (blockTimestamp tx));
    [|discriminate].
  destruct (wei_cost tx) as [wei0|]; [|discriminate].
  destruct (formatEther wei0); [|discriminate].
  now intros [= -> _].
Qed.

(** What one turn of the loop does to the variables: nothing, or the
    accounting of the transaction at its cost. *)
Lemma process_step (tx : TransactionRecord) (st : totals) (w : world)
    (st' : totals) (w' : world) :
  process_transaction tx st w = Some (Normal st', w') ->
  st' = st \/
  exists wei eth price slot,
    priced tx = Some (wei, eth) /\ st' = account tx wei eth price slot st.
Proof.
  intros H. destruct (priced tx) as [[wei eth]|] eqn:Hp.
  - rewrite (process_priced tx wei eth st w Hp) in H.
    destruct (fetchHistoricalETHPrice (blockTimestamp tx) w) as [[[[price|]|e] w0]|];
      try discriminate; injection H as <- _.
    + right. now exists wei, eth, price, (Some price).
    + destruct (lastValidPrice st) as [last|] eqn:Hslot; [right|now left].
      now exists wei, eth, last, (Some last).
    + now left.
  - rewrite (process_not_priced tx Hp st w) in H. injection H as <- _. now left.
Qed.

(** The loop accounts a selection of the transactions, in their order:
    the new entries are theirs and the total in wei grows by the sum of
    their costs. *)
Lemma for_of_totals (txs : list TransactionRecord) :
  forall st w st' w',
    for_of txs st w = Some (Normal st', w') ->
    exists kept costs,
      selection kept txs /\
      txCosts st' = (txCosts st ++ costs)%list /\
      Forall2 entry_of kept costs /\
      totalGasCostWei st' = totalGasCostWei st + sum_Z (map wei_of kept).
Proof.
  induction txs as [|tx txs IH]; intros st w st' w' Hrun; simpl in Hrun.
  - injection Hrun as <- _. exists [], []. repeat split.
    + constructor.
    + now rewrite app_nil_r.
    + constructor.
    + simpl. lia.
  - unfold bind in Hrun.
    destruct (process_transaction tx st w) as [[[st1|e1] w1]|] eqn:Hstep;
      try discriminate.
    destruct (IH st1 w1 st' w' Hrun) as [kept [costs [Hsel [Hcosts [Hentries Hsum]]]]].
    destruct (process_step tx st w st1 w1 Hstep)
      as [->|[wei [eth [price [slot [Hp ->]]]]]].
    + exists kept, costs. repeat split; auto. now constructor.
    + exists (tx :: kept).
      exists ({| cost_hash := hash tx; cost_timestamp := blockTimestamp tx;
                 costETH := eth; costUSD := fmul eth price |} :: costs).
      repeat split.
      * now constructor.
      * rewrite Hcosts. unfold account. cbn [txCosts]. now rewrite <- app_assoc.
      * constructor; [|assumption]. repeat split. now exists wei.
      * assert (Hw : wei_of tx = wei)
          by (unfold wei_of; now rewrite (priced_wei tx wei eth Hp)).
        rewrite Hsum. unfold account, sum_Z. cbn [totalGasCostWei map fold_right].
        rewrite Hw. lia.
Qed.

Lemma BigInt_toString_truthy (z : Z) : truthy (String (BigInt_toString z)) = true.
Proof.
  destruct z as [|q|q]; [reflexivity| |reflexivity].
  unfold BigInt_toString. cbn [Z.to_int NilZero.string_of_int].
  rewrite string_of_positive.
  destruct (digits_start (Pos.to_uint q) (Unsigned.to_uint_nonnil q)) as [ch [rest [-> _]]].
  reflexivity.
Qed.

(** A transaction whose two quantities are the decimal texts of integers
    gets as far as the price lookup, at the product of the two, when it has
    a time stamp and the product fits ethers' width. *)
Lemma priced_of_quantities (tx : TransactionRecord) (g p : Z) (ether : string) :
  gasUsedValue tx = String (BigInt_toString g) ->
  gasPriceValue tx = String (BigInt_toString p) ->
  truthy (blockTimestamp tx) = true ->
  formatEther (g * p) = Normal ether ->
  priced tx = Some (g * p, parseFloat (String ether)).
Proof.
  intros Hg Hp Hts Hether. unfold priced, wei_cost.
  rewrite Hg, Hp, !BigInt_toString_truthy, Hts, !BigInt_of_decimal. cbn [andb].
  now rewrite Hether.
Qed.

(** The loop accounts the transactions that [accounted] tells: the new
    entries are theirs, one each and in their order, and the total in wei
    grows by the sum of their costs. *)
Lemma for_of_accounted (txs : list TransactionRecord) :
  forall st w st' w',
    for_of txs st w = Some (Normal st', w') ->
    exists costs,
      txCosts st' = (txCosts st ++ costs)%list /\
      Forall2 entry_of (accounted txs (lastValidPrice st) w) costs /\
      totalGasCostWei st' =
        totalGasCostWei st + sum_Z (map wei_of (accounted txs (lastValidPrice st) w)).
Proof.
  induction txs as [|tx txs IH]; intros st w st' w' Hrun; simpl in Hrun.
  - injection Hrun as <- _. exists []. repeat split.
    + now rewrite app_nil_r.
    + constructor.
    + simpl. lia.
  - unfold bind in Hrun.
    destruct (process_transaction tx st w) as [[[st1|e1] w1]|] eqn:Hstep; try discriminate.
    destruct (IH st1 w1 st' w' Hrun) as [costs [Hcosts [Hentries Hsum]]].
    cbn [accounted].
    assert (Hacc : forall wei eth price slot,
               priced tx = Some (wei, eth) ->
               st1 = account tx wei eth price slot st ->
               exists costs0,
                 txCosts st' = (txCosts st ++ costs0)%list /\
                 Forall2 entry_of (tx :: accounted txs slot w1) costs0 /\
                 totalGasCostWei st' =
                   totalGasCostWei st + sum_Z (map wei_of (tx :: accounted txs slot w1))).
    { intros wei eth price slot Hp ->.
      cbn [lastValidPrice totalGasCostWei txCosts account] in *.
      exists ({| cost_hash := hash tx; cost_timestamp := blockTimestamp tx;
                 costETH := eth; costUSD := fmul eth price |} :: costs).
      repeat split.
      - rewrite Hcosts. now rewrite <- app_assoc.
      - constructor; [|exact Hentries]. repeat split. now exists wei.
      - assert (Hw : wei_of tx = wei)
          by (unfold wei_of; now rewrite (priced_wei tx wei eth Hp)).
        rewrite Hsum. unfold sum_Z. cbn [map fold_right]. rewrite Hw. lia. }
    destruct (priced tx) as [[wei eth]|] eqn:Hp.
    + rewrite (process_priced tx wei eth st w Hp) in Hstep.
      destruct (fetchHistoricalETHPrice (blockTimestamp tx) w) as [[[[price|]|e] w0]|];
        try discriminate.
      * injection Hstep as <- <-. now apply (Hacc wei eth price (Some price)).
      * destruct (lastValidPrice st) as [last|] eqn:Hslot; injection Hstep as <- <-.
        -- now apply (Hacc wei eth last (Some last)).
        -- rewrite Hslot in Hentries, Hsum. now exists costs.
      * injection Hstep as <- <-. now exists costs.
    + rewrite (process_not_priced tx Hp st w) in Hstep. injection Hstep as <- <-.
      now exists costs.
Qed.

(** C2. The cost of a transaction in wei is the exact product of its gas
    used and its gas price, whatever the size of the two integers. A
    transaction whose quantities are the decimal texts of [g] and [p] is
    accounted at [g * p]: when its lookup finds a price, or finds none and
    there is a last valid price, the loop body adds exactly [g * p] to the
    total. [totalGasCostWei] of a run is the decimal text of the exact sum
    of the costs of the transactions that were accounted, each with its
    entry of [transactionCosts], in their order. *)
Theorem exact_wei_total :
  (forall tx g p, gasUsedValue tx = String (BigInt_toString g) ->
                  gasPriceValue tx = String (BigInt_toString p) ->
                  wei_cost tx = Some (g * p)) /\
  (forall tx g p ether st w found w1,
      gasUsedValue tx = String (BigInt_toString g) ->
      gasPriceValue tx = String (BigInt_toString p) ->
      truthy (blockTimestamp tx) = true ->
      formatEther (g * p) = Normal ether ->
      fetchHistoricalETHPrice (blockTimestamp tx) w = Some (Normal found, w1) ->
      forall price,
        found = Some price \/ (found = None /\ lastValidPrice st = Some price) ->
        exists st',
          process_transaction tx st w = Some (Normal st', w1) /\
          totalGasCostWei st' = totalGasCostWei st + g * p /\
          List.length (txCosts st') = S (List.length (txCosts st))) /\
  (forall c address w r w',
      calculateTotalGasCost c address w = Some (Normal r, w') ->
      exists txs w0,
        fetchTransactionHistory c address w = Some (Normal txs, w0) /\
        Forall2 entry_of (accounted txs None w0) (AggregateResult.transactionCosts r) /\
        AggregateResult.totalGasCostWei r =
          BigInt_toString (sum_Z (map wei_of (accounted txs None w0)))).
Proof.
  split; [|split].
  - intros tx g p Hg Hp. unfold wei_cost. now rewrite Hg, Hp, !BigInt_of_decimal.
  - intros tx g p ether st w found w1 Hg Hp Hts Hether Hlookup price Hprice.
    pose proof (priced_of_quantities tx g p ether Hg Hp Hts Hether) as Hpriced.
    pose proof (process_priced tx (g * p) _ st w Hpriced) as Hstep.
    rewrite Hlookup in Hstep.
    destruct Hprice as [->|[-> Hslot]]; [|rewrite Hslot in Hstep];
      (eexists; split; [exact Hstep|]);
      unfold account; cbn [totalGasCostWei txCosts];
      (split; [reflexivity|]); rewrite length_app; simpl; lia.
  - intros c address w r w'. unfold calculateTotalGasCost, bind.
    destruct (fetchTransactionHistory c address w) as [[[txs|e] w0]|]; try discriminate.
    destruct (for_of txs no_totals w0) as [[[st|e] w1]|] eqn:Hrun; try discriminate.
    cbn. intros [= <- _].
    destruct (for_of_accounted txs no_totals w0 st w1 Hrun) as [costs [Hcosts [Hentries Hsum]]].
    cbn [lastValidPrice txCosts totalGasCostWei no_totals] in *.
    exists txs, w0. split; [reflexivity|]. split.
    + cbn. now rewrite Hcosts.
    + cbn. now rewrite Hsum.
Qed.

(** The transaction beyond [2 ^ 53] is accounted at the exact product, and
    the run over [big_world], where it comes with a record without gas and a
    transaction accounted at the last valid price, has the exact total,
    digit for digit. *)
Lemma exact_wei_total_witness :
  wei_cost tx_big = Some ((2 ^ 64 + 1) * (10 ^ 30 + 1)) /\
  (exists st',
      process_transaction tx_big no_totals (sample_world [] [price_point "2000.5"]) =
        Some (Normal st', lookups [] [price_request 1700000400000]) /\
      totalGasCostWei st' = totalGasCostWei no_totals + (2 ^ 64 + 1) * (10 ^ 30 + 1) /\
      List.length (txCosts st') = S (List.length (txCosts no_totals))) /\
  calculateTotalGasCost before_field "0xabc" big_world = Some (Normal big_result, big_after) /\
  AggregateResult.totalGasCostWei big_result =
    BigInt_toString ((2 ^ 64 + 1) * (10 ^ 30 + 1) + 21000 * 20000000000) /\
  2 ^ 53 < 2 ^ 64 + 1.
Proof.
  assert (Hrun : calculateTotalGasCost before_field "0xabc" big_world =
                 Some (Normal big_result, big_after)) by (vm_compute; reflexivity).
  split; [|split; [|split; [exact Hrun|split; [|reflexivity]]]].
  - apply (proj1 exact_wei_total tx_big (2 ^ 64 + 1) (10 ^ 30 + 1)); reflexivity.
  - refine (proj1 (proj2 exact_wei_total) tx_big (2 ^ 64 + 1) (10 ^ 30 + 1)
              "18446744073709551617000000000018.446744073709551617"
              no_totals (sample_world [] [price_point "2000.5"]) (Some price_X)
              (lookups [] [price_request 1700000400000]) _ _ _ _ _ price_X _);
      try (vm_compute; reflexivity).
    left; reflexivity.
  - destruct (proj2 (proj2 exact_wei_total) before_field "0xabc" big_world big_result
                big_after Hrun) as [txs [w0 [Hfetch [_ Htotal]]]].
    vm_compute in Hfetch. injection Hfetch as <- <-.
    rewrite Htotal. vm_compute. reflexivity.
Defined.

(** A run over the large transaction alone: the total is the product,
    digit for digit. *)
Example exact_wei_total_large :
  option_map (fun r => match fst r with
                       | Normal a => AggregateResult.totalGasCostWei a
                       | Throw _ => ""
                       end)
    (calculateTotalGasCost before_field "0xabc"
       (sample_world (one_page [tx_big]) [price_point "2000.5"])) =
  Some "18446744073709551617000000000018446744073709551617".
Proof. vm_compute. reflexivity. Qed.

(** ** The total in USD *)

(** C8, as the code has it. [totalGasCostUSD] is [toFixed(2)] of the sum
    the loop ends with: a decimal text with exactly two fraction digits when
    that sum is finite and below [10 ^ 21] in magnitude, and the text
    [toString] gives the sum otherwise. *)
Theorem usd_total_two_digits (c : cursor_field) (address : string) (w : world)
    (r : AggregateResult.t) (w' : world) :
  calculateTotalGasCost c address w = Some (Normal r, w') ->
  exists txs w0 st,
    fetchTransactionHistory c address w = Some (Normal txs, w0) /\
    for_of txs no_totals w0 = Some (Normal st, w') /\
    r = summary st /\
    (fixed_range (totalGasCostUSD st) = true ->
     two_fraction_digits (AggregateResult.totalGasCostUSD r) = true) /\
    (fixed_range (totalGasCostUSD st) = false ->
     AggregateResult.totalGasCostUSD r = Number_toString (totalGasCostUSD st)).
Proof.
  unfold calculateTotalGasCost, bind.
  destruct (fetchTransactionHistory c address w) as [[[txs|e] w0]|]; try discriminate.
  destruct (for_of txs no_totals w0) as [[[st|e] w1]|] eqn:Hrun; try discriminate.
  cbn. intros [= <- <-]. exists txs, w0, st.
  split; [reflexivity|]. split; [exact Hrun|]. split; [reflexivity|]. split.
  - intros Hr. now apply toFixed2_fixed_range.
  - intros Hr. now apply toFixed2_outside_fixed_range.
Qed.

Lemma usd_total_two_digits_witness :
  exists txs w0 st,
    fetchTransactionHistory before_field "0xabc" ten_dollar_world = Some (Normal txs, w0) /\
    for_of txs no_totals w0 =
      Some (Normal st,
            {| history_script := []; price_script := [];
               sent := [PostHistory (history_payload before_field "0xabc" Undefined);
                        price_request 1700000000000];
               clock := 1700000900000 |}) /\
    ten_dollar_result = summary st /\
    (fixed_range (totalGasCostUSD st) = true ->
     two_fraction_digits (AggregateResult.totalGasCostUSD ten_dollar_result) = true) /\
    (fixed_range (totalGasCostUSD st) = false ->
     AggregateResult.totalGasCostUSD ten_dollar_result = Number_toString (totalGasCostUSD st)).
Proof.
  apply (usd_total_two_digits before_field "0xabc" ten_dollar_world ten_dollar_result).
  vm_compute. reflexivity.
Defined.

(** C8 as the specification states it fails: a price point without a value makes
    the sum NaN, and a sum of [10 ^ 21] is written in exponent form. *)
Lemma usd_total_counterexample :
  usd_text (calculateTotalGasCost before_field "0xabc" no_value_world) = Some "NaN" /\
  two_fraction_digits "NaN" = false /\
  usd_text (calculateTotalGasCost before_field "0xabc" huge_world) = Some "1e+21" /\
  two_fraction_digits "1e+21" = false.
Proof. repeat split; vm_compute; reflexivity. Qed.

(** ** The handler *)

(** C9. A request without an [address] parameter, or with an empty one,
    is answered with status 400 and the body
    [{"error": "Missing address parameter"}]; the world is left as it was:
    no request goes to either provider. *)
Theorem missing_address_400 (c : cursor_field) (request : Request) (w : world) :
  searchParams_get "address" (searchParams request) = None \/
  searchParams_get "address" (searchParams request) = Some "" ->
  GET c request w =
    Some (Normal {| body := ErrorBody "Missing address parameter"; status := 400 |}, w).
Proof.
  intros [H|H]; unfold GET; rewrite H; reflexivity.
Qed.

Lemma missing_address_400_witness :
  GET before_field {| searchParams := [("addr", "0xabc"); ("address", "")] |}
      (sample_world (one_page [tx_a]) [price_point "2000.5"]) =
    Some (Normal {| body := ErrorBody "Missing address parameter"; status := 400 |},
          sample_world (one_page [tx_a]) [price_point "2000.5"]).
Proof.
  apply (missing_address_400 before_field
           {| searchParams := [("addr", "0xabc"); ("address", "")] |}).
  right. reflexivity.
Defined.

(** ** Determinism *)

Create HintDb det discriminated.

Lemma det_ret {A} (a : A) : deterministic (ret a).
Proof. intros w1 w2 H. simpl. auto. Qed.

Lemma det_throw {A} (e : error) : deterministic (@throw A e).
Proof. intros w1 w2 H. simpl. auto. Qed.

Lemma det_lift {A} (c : completion A) : deterministic (lift c).
Proof. destruct c; [apply det_ret|apply det_throw]. Qed.

Lemma det_bind {A B} (m : M A) (k : A -> M B) :
  deterministic m -> (forall a, deterministic (k a)) -> deterministic (bind m k).
Proof.
  intros Hm Hk w1 w2 H. unfold bind. specialize (Hm w1 w2 H).
  destruct (m w1) as [[[a1|e1] w1']|], (m w2) as [[[a2|e2] w2']|];
    simpl in Hm; try contradiction; try (destruct Hm; discriminate);
    try exact Hm; try exact I.
  - destruct Hm as [Heq Hw]. injection Heq as ->. now apply Hk.
  - destruct Hm as [Heq Hw]. injection Heq as ->. now split.
Qed.

Lemma det_try_catch {A} (m : M A) (h : error -> M A) :
  deterministic m -> (forall e, deterministic (h e)) -> deterministic (try_catch m h).
Proof.
  intros Hm Hh w1 w2 H. unfold try_catch. specialize (Hm w1 w2 H).
  destruct (m w1) as [[[a1|e1] w1']|], (m w2) as [[[a2|e2] w2']|];
    simpl in Hm; try contradiction; try (destruct Hm; discriminate);
    try exact Hm; try exact I.
  destruct Hm as [Heq Hw]. injection Heq as ->. now apply Hh.
Qed.

Lemma det_post_history (data : HistoryRequest) : deterministic (post_history data).
Proof.
  intros w1 w2 [Hh Hp]. unfold post_history. rewrite Hh.
  destruct (history_script w2); simpl; auto. repeat split; auto.
Qed.

Lemma det_post_price (body : PriceRequest) : deterministic (post_price body).
Proof.
  intros w1 w2 [Hh Hp]. unfold post_price. rewrite Hp.
  destruct (price_script w2); simpl; auto. repeat split; auto.
Qed.

#[local] Hint Resolve det_ret det_throw det_lift det_post_history det_post_price : det.
#[local] Hint Extern 2 (deterministic (bind _ _)) => apply det_bind; [|intro] : det.
#[local] Hint Extern 2 (deterministic (try_catch _ _)) => apply det_try_catch; [|intro] : det.
#[local] Hint Extern 3 (deterministic (if ?b then _ else _)) => destruct b : det.
#[local] Hint Extern 3 (deterministic (match ?x with _ => _ end)) => destruct x : det.

Lemma det_fetch_page (c : cursor_field) (address : string)
    (acc : list TransactionRecord) (cursor : value) :
  deterministic (fetch_page c address acc cursor).
Proof. unfold fetch_page. auto 8 with det. Qed.

Lemma det_fetch_loop (c : cursor_field) (turns : nat) (address : string) :
  forall acc cursor, deterministic (fetch_loop c turns address acc cursor).
Proof.
  induction turns as [|turns IH]; intros acc cursor; simpl.
  - intros w1 w2 _. exact I.
  - apply det_bind; [apply det_fetch_page|].
    intros [[acc' cursor'] hasMore]. destruct hasMore; auto with det.
Qed.

Lemma det_fetchTransactionHistory (c : cursor_field) (address : string) :
  deterministic (fetchTransactionHistory c address).
Proof.
  intros w1 w2 H. unfold fetchTransactionHistory.
  rewrite (proj1 H). now apply det_fetch_loop.
Qed.

Lemma det_fetchHistoricalETHPrice (timestamp : value) :
  deterministic (fetchHistoricalETHPrice timestamp).
Proof. unfold fetchHistoricalETHPrice. auto 10 with det. Qed.

#[local] Hint Resolve det_fetchTransactionHistory det_fetchHistoricalETHPrice : det.

Lemma det_process_transaction (tx : TransactionRecord) (st : totals) :
  deterministic (process_transaction tx st).
Proof. unfold process_transaction. auto 12 with det. Qed.

Lemma det_for_of (txs : list TransactionRecord) :
  forall st, deterministic (for_of txs st).
Proof.
  induction txs as [|tx txs IH]; intros st; simpl; auto with det.
  apply det_bind; [apply det_process_transaction|auto].
Qed.

Lemma det_calculateTotalGasCost (c : cursor_field) (address : string) :
  deterministic (calculateTotalGasCost c address).
Proof.
  unfold calculateTotalGasCost.
  apply det_bind; [auto with det|intros txs].
  apply det_bind; [apply det_for_of|auto with det].
Qed.

(** C7. The outcome of an aggregation is a function of the address and
    of the answers of the providers: two calls that get the same answers
    return the same result (or fail alike, or hang alike), whatever the
    time of the call and whatever was requested before. *)
Theorem aggregation_deterministic (c : cursor_field) (address : string)
    (hs : list (reply HistoryData)) (ps : list (reply PriceData))
    (sent1 sent2 : list request) (clock1 clock2 : Z) :
  option_map fst
    (calculateTotalGasCost c address
       {| history_script := hs; price_script := ps; sent := sent1; clock := clock1 |}) =
  option_map fst
    (calculateTotalGasCost c address
       {| history_script := hs; price_script := ps; sent := sent2; clock := clock2 |}).
Proof.
  pose proof (det_calculateTotalGasCost c address
    {| history_script := hs; price_script := ps; sent := sent1; clock := clock1 |}
    {| history_script := hs; price_script := ps; sent := sent2; clock := clock2 |}
    (conj eq_refl eq_refl)) as H.
  destruct (calculateTotalGasCost c address _) as [[r1 w1]|],
           (calculateTotalGasCost c address _) as [[r2 w2]|];
    simpl in *; try contradiction; auto.
  destruct H as [-> _]. reflexivity.
Qed.

(** ** The requests of a run *)

Section Requests.

Variable c : cursor_field.
Variable address : string.

Lemma history_payload_for (cursor : value) :
  history_request_for address (PostHistory (history_payload c address cursor)).
Proof. exists (history_payload c address cursor). now repeat split. Qed.

(** A turn of the fetch loop that ends takes the first answer of the
    history endpoint and sends one page request. *)
Lemma fetch_page_world (acc : list TransactionRecord) (cursor : value) (w : world)
    (r : completion (list TransactionRecord * value * bool)) (w' : world) :
  fetch_page c address acc cursor w = Some (r, w') ->
  exists a rest,
    history_script w = a :: rest /\
    w' = after_history w rest [PostHistory (history_payload c address cursor)].
Proof.
  unfold fetch_page, try_catch, bind, post_history.
  destruct (history_script w) as [|a rest]; [discriminate|].
  intros H. exists a, rest. split; [reflexivity|].
  destruct a as [d|e]; cbn in H.
  - destruct (response_transactions d) as [[|tx txs]|]; try (now injection H as _ <-).
    destruct (truthy (cursor_of c d)); now injection H as _ <-.
  - now injection H as _ <-.
Qed.

(** The fetch loop sends one page request for every answer it takes, all
    for the address, and touches nothing else of the world. *)
Lemma fetch_loop_requests (turns : nat) :
  forall (acc : list TransactionRecord) (cursor : value) (w : world)
         (r : completion (list TransactionRecord)) (w' : world),
    fetch_loop c turns address acc cursor w = Some (r, w') ->
    exists taken reqs,
      history_script w = (taken ++ history_script w')%list /\
      price_script w' = price_script w /\
      sent w' = (sent w ++ reqs)%list /\
      List.length reqs = List.length taken /\
      reqs <> [] /\
      Forall (history_request_for address) reqs.
Proof.
  induction turns as [|turns IH]; intros acc cursor w r w' H; [discriminate|].
  cbn [fetch_loop] in H. unfold bind in H.
  destruct (fetch_page c address acc cursor w) as [[rp w1]|] eqn:Hpage; [|discriminate].
  destruct (fetch_page_world acc cursor w rp w1 Hpage) as [a [rest [Hw ->]]].
  set (req := PostHistory (history_payload c address cursor)) in *.
  assert (Hone : exists taken reqs,
             history_script w = (taken ++ rest)%list /\
             sent (after_history w rest [req]) = (sent w ++ reqs)%list /\
             List.length reqs = List.length taken /\ reqs <> [] /\
             Forall (history_request_for address) reqs).
  { exists [a], [req]. repeat split; auto; [discriminate|].
    constructor; [apply history_payload_for|constructor]. }
  destruct rp as [[[acc' cursor'] hasMore]|e].
  - destruct hasMore.
    + destruct (IH acc' cursor' _ r w' H)
        as [taken [reqs [Hh [Hp [Hs [Hlen [Hne Hall]]]]]]].
      exists (a :: taken), (req :: reqs). cbn in Hh, Hp, Hs. repeat split.
      * now rewrite Hw, Hh.
      * exact Hp.
      * rewrite Hs. now rewrite <- app_assoc.
      * simpl. now rewrite Hlen.
      * discriminate.
      * constructor; [apply history_payload_for|exact Hall].
    + injection H as <- <-.
      destruct Hone as [taken [reqs [Hh [Hs [Hlen [Hne Hall]]]]]].
      exists taken, reqs. now repeat split.
  - injection H as <- <-.
    destruct Hone as [taken [reqs [Hh [Hs [Hlen [Hne Hall]]]]]].
    exists taken, reqs. now repeat split.
Qed.

End Requests.

(** A turn of the loop over the transactions leaves the world as it is,
    or takes the first answer of the price endpoint and sends one request
    for the hourly price of ETH. *)
Lemma process_transaction_world (tx : TransactionRecord) (st : totals) (w : world)
    (r : completion totals) (w' : world) :
  process_transaction tx st w = Some (r, w') ->
  w' = w \/
  exists a rest body,
    price_script w = a :: rest /\ w' = after_prices w rest [PostPrice body] /\
    symbol body = "ETH" /\ interval body = "1h".
Proof.
  intros H. destruct (priced tx) as [[wei eth]|] eqn:Hp.
  - rewrite (process_priced tx wei eth st w Hp) in H.
    destruct (new_Date (ToNumber (blockTimestamp tx))) as [t1|] eqn:H1;
      [destruct (new_Date (fadd (ToNumber (blockTimestamp tx)) (number_of_Z 3600000)))
         as [t2|] eqn:H2|].
    + rewrite (lookup_valid _ t1 t2 w H1 H2) in H.
      destruct (price_script w) as [|a rest]; [discriminate|].
      right. eexists a, rest, _. split; [reflexivity|]. split.
      * destruct (price_outcome a) as [[price|]|e]; now injection H as _ <-.
      * split; reflexivity.
    + rewrite (lookup_invalid _ w (or_intror H2)) in H. left. now injection H as _ <-.
    + rewrite (lookup_invalid _ w (or_introl H1)) in H. left. now injection H as _ <-.
  - rewrite (process_not_priced tx Hp st w) in H. left. now injection H as _ <-.
Qed.

(** The loop sends one price request for every answer of the price
    endpoint it takes, at most one for a transaction, and touches nothing
    else of the world. *)
Lemma for_of_requests (txs : list TransactionRecord) :
  forall (st : totals) (w : world) (r : completion totals) (w' : world),
    for_of txs st w = Some (r, w') ->
    exists taken reqs,
      price_script w = (taken ++ price_script w')%list /\
      history_script w' = history_script w /\
      sent w' = (sent w ++ reqs)%list /\
      List.length reqs = List.length taken /\
      (List.length reqs <= List.length txs)%nat /\
      Forall hourly_eth_request reqs.
Proof.
  induction txs as [|tx txs IH]; intros st w r w' H; simpl in H.
  - injection H as <- <-. exists [], []. repeat split; auto. now rewrite app_nil_r.
  - unfold bind in H.
    destruct (process_transaction tx st w) as [[[st1|e1] w1]|] eqn:Hstep; try discriminate.
    + destruct (IH st1 w1 r w' H) as [taken [reqs [Hp [Hh [Hs [Hlen [Hle Hall]]]]]]].
      destruct (process_transaction_world tx st w _ w1 Hstep)
        as [->|[a [rest [body [Hw [-> [Hsym Hint]]]]]]].
      * exists taken, reqs. repeat split; auto. simpl. lia.
      * cbn in Hp, Hh, Hs. exists (a :: taken), (PostPrice body :: reqs). repeat split.
        -- now rewrite Hw, Hp.
        -- exact Hh.
        -- rewrite Hs. now rewrite <- app_assoc.
        -- simpl. now rewrite Hlen.
        -- simpl. lia.
        -- constructor; [now exists body|exact Hall].
    + now apply process_transaction_returns in Hstep.
Qed.

(** The requests of an aggregation: first the page requests, one or more,
    all for the address, the configured network and at most 50 records;
    then the price requests, all for the hourly price of ETH, at most one
    for a fetched transaction and none when the fetch failed. Each request
    takes one answer of its endpoint. *)
Theorem requests_of_a_run (c : cursor_field) (address : string) (w : world)
    (r : completion AggregateResult.t) (w' : world) :
  calculateTotalGasCost c address w = Some (r, w') ->
  exists pages prices,
    sent w' = (sent w ++ pages ++ prices)%list /\
    pages <> [] /\
    Forall (history_request_for address) pages /\
    Forall hourly_eth_request prices /\
    (List.length pages + List.length (history_script w') =
       List.length (history_script w))%nat /\
    (List.length prices + List.length (price_script w') =
       List.length (price_script w))%nat /\
    (forall e, r = Throw e -> prices = []) /\
    (forall txs w0, fetchTransactionHistory c address w = Some (Normal txs, w0) ->
                    (List.length prices <= List.length txs)%nat).
Proof.
  unfold calculateTotalGasCost, bind, fetchTransactionHistory.
  destruct (fetch_loop c (S (List.length (history_script w))) address [] Undefined w)
    as [[[txs|e] w0]|] eqn:Hfetch; try discriminate.
  - destruct (fetch_loop_requests c address _ _ _ _ _ _ Hfetch)
      as [taken [pages [Hh [Hp [Hs [Hlen [Hne Hall]]]]]]].
    destruct (for_of txs no_totals w0) as [[[st|e] w1]|] eqn:Hloop; try discriminate.
    + cbn. intros [= <- <-].
      destruct (for_of_requests txs _ _ _ _ Hloop)
        as [taken' [prices [Hp' [Hh' [Hs' [Hlen' [Hle Hall']]]]]]].
      exists pages, prices. repeat split; auto.
      * rewrite Hs', Hs. now rewrite app_assoc.
      * rewrite Hh, Hh', length_app. lia.
      * rewrite <- Hp, Hp', length_app. lia.
      * discriminate.
      * now intros txs' w0' [= <- _].
    + now apply for_of_returns in Hloop.
  - destruct (fetch_loop_requests c address _ _ _ _ _ _ Hfetch)
      as [taken [pages [Hh [Hp [Hs [Hlen [Hne Hall]]]]]]].
    intros [= <- <-]. exists pages, []. repeat split; auto.
    + now rewrite app_nil_r.
    + rewrite Hh, length_app. lia.
    + now rewrite Hp.
    + discriminate.
Qed.

Lemma requests_of_a_run_witness :
  exists pages prices,
    sent ten_dollar_after = (sent ten_dollar_world ++ pages ++ prices)%list /\
    pages <> [] /\
    Forall (history_request_for "0xabc") pages /\
    Forall hourly_eth_request prices /\
    (List.length pages + List.length (history_script ten_dollar_after) =
       List.length (history_script ten_dollar_world))%nat /\
    (List.length prices + List.length (price_script ten_dollar_after) =
       List.length (price_script ten_dollar_world))%nat /\
    (forall e, Normal ten_dollar_result = Throw e -> prices = []) /\
    (forall txs w0,
        fetchTransactionHistory before_field "0xabc" ten_dollar_world = Some (Normal txs, w0) ->
        (List.length prices <= List.length txs)%nat).
Proof.
  apply (requests_of_a_run before_field "0xabc" ten_dollar_world
           (Normal ten_dollar_result) ten_dollar_after).
  vm_compute. reflexivity.
Defined.

(** ** The answers of the handler *)

(** The answers of the handler, case by case. *)
Lemma GET_cases (c : cursor_field) (request : Request) (w : world)
    (response : Response) (w' : world) :
  GET c request w = Some (Normal response, w') ->
  (status response = 400 /\
   body response = ErrorBody "Missing address parameter" /\ w' = w /\
   (searchParams_get "address" (searchParams request) = None \/
    searchParams_get "address" (searchParams request) = Some "")) \/
  (exists address e,
      searchParams_get "address" (searchParams request) = Some address /\
      address <> "" /\
      status response = 500 /\ body response = ErrorBody (message e) /\
      fetchTransactionHistory c address w = Some (Throw e, w')) \/
  (exists address result,
      searchParams_get "address" (searchParams request) = Some address /\
      address <> "" /\
      status response = 200 /\ body response = ResultBody result /\
      calculateTotalGasCost c address w = Some (Normal result, w')).
Proof.
  unfold GET.
  destruct (searchParams_get "address" (searchParams request)) as [[|a address]|].
  - intros [= <- <-]. left. auto.
  - unfold try_catch, bind.
    destruct (calculateTotalGasCost c (String.String a address) w)
      as [[[result|e] w1]|] eqn:Hcalc; try discriminate.
    + intros [= <- <-]. right. right.
      exists (String.String a address), result. repeat split; auto. discriminate.
    + intros [= <- <-]. right. left.
      exists (String.String a address), e. repeat split; auto; [discriminate|].
      now apply calculateTotalGasCost_throws.
  - intros [= <- <-]. left. auto.
Qed.

(** The handler throws nothing. Its answer is one of three: status 400 for
    a missing or empty address, with no request sent; status 500 with the
    message of the error that [calculateTotalGasCost] threw, whatever threw
    it there; status 200 with the result that [calculateTotalGasCost]
    returned. *)
Theorem GET_answers (c : cursor_field) (request : Request) (w : world) :
  (forall e w', GET c request w <> Some (Throw e, w')) /\
  (forall response w',
      GET c request w = Some (Normal response, w') ->
      (status response = 400 /\
       body response = ErrorBody "Missing address parameter" /\ w' = w /\
       (searchParams_get "address" (searchParams request) = None \/
        searchParams_get "address" (searchParams request) = Some "")) \/
      (exists address e,
          searchParams_get "address" (searchParams request) = Some address /\
          address <> "" /\
          status response = 500 /\ body response = ErrorBody (message e) /\
          calculateTotalGasCost c address w = Some (Throw e, w')) \/
      (exists address result,
          searchParams_get "address" (searchParams request) = Some address /\
          address <> "" /\
          status response = 200 /\ body response = ResultBody result /\
          calculateTotalGasCost c address w = Some (Normal result, w'))).
Proof.
  unfold GET.
  destruct (searchParams_get "address" (searchParams request)) as [[|a address]|].
  - split; [discriminate|]. intros response w' [= <- <-]. left. auto.
  - unfold try_catch, bind.
    destruct (calculateTotalGasCost c (String.String a address) w)
      as [[[result|e] w1]|] eqn:Hcalc; (split; [discriminate|]).
    + intros response w' [= <- <-]. right. right.
      exists (String.String a address), result. repeat split; auto. discriminate.
    + intros response w' [= <- <-]. right. left.
      exists (String.String a address), e. repeat split; auto. discriminate.
    + discriminate.
  - split; [discriminate|]. intros response w' [= <- <-]. left. auto.
Qed.

(** ** Runs that account nothing *)

(** An address whose first page has no records gets the result of zeros:
    one page request, no price request, status 200. *)
Theorem empty_history (c : cursor_field) (address : string) (d : HistoryData)
    (rest : list (reply HistoryData)) (w : world) :
  history_script w = Resolved d :: rest ->
  records d = [] ->
  address <> "" ->
  let w' := after_history w rest [PostHistory (history_payload c address Undefined)] in
  calculateTotalGasCost c address w = Some (Normal empty_summary, w') /\
  GET c {| searchParams := [("address", address)] |} w =
    Some (Normal {| body := ResultBody empty_summary; status := 200 |}, w').
Proof.
  intros Hw Hd Haddr w'.
  assert (Hstop : stops c (Resolved d)).
  { unfold stops, continuing. unfold records in Hd.
    now destruct (response_transactions d) as [[|tx txs]|]. }
  assert (Hcalc : calculateTotalGasCost c address w = Some (Normal empty_summary, w')).
  { unfold calculateTotalGasCost, bind, fetchTransactionHistory.
    rewrite (fetch_loop_run c address [] (Resolved d) rest _ [] Undefined w
               (Forall_nil _) Hstop Hw) by (rewrite Hw; simpl; lia).
    cbn. now rewrite Hd. }
  split; [exact Hcalc|].
  unfold GET. simpl. destruct address as [|a address']; [contradiction|].
  unfold try_catch, bind. now rewrite Hcalc.
Qed.

Lemma empty_history_witness :
  GET before_field {| searchParams := [("address", "0xabc")] |} no_transactions_world =
    Some (Normal {| body := ResultBody empty_summary; status := 200 |},
          after_history no_transactions_world []
            [PostHistory (history_payload before_field "0xabc" Undefined)]).
Proof.
  refine (proj2 (empty_history before_field "0xabc"
                   {| response_transactions := Some [];
                      response_before := Undefined; response_after := Undefined |}
                   [] no_transactions_world _ _ _)).
  - reflexivity.
  - reflexivity.
  - discriminate.
Defined.

(** Without a price, and without a last valid price, a turn of the loop
    changes nothing. *)
Lemma for_of_without_price (txs : list TransactionRecord) :
  forall st w st' w',
    Forall without_price (price_script w) ->
    lastValidPrice st = None ->
    for_of txs st w = Some (Normal st', w') ->
    st' = st.
Proof.
  induction txs as [|tx txs IH]; intros st w st' w' Hall Hslot H; simpl in H.
  - now injection H as <- _.
  - unfold bind in H.
    destruct (process_transaction tx st w) as [[[st1|e1] w1]|] eqn:Hstep; try discriminate.
    assert (Hsame : st1 = st /\ Forall without_price (price_script w1)).
    { destruct (priced tx) as [[wei eth]|] eqn:Hp.
      - rewrite (process_priced tx wei eth st w Hp) in Hstep.
        destruct (new_Date (ToNumber (blockTimestamp tx))) as [t1|] eqn:H1;
          [destruct (new_Date (fadd (ToNumber (blockTimestamp tx)) (number_of_Z 3600000)))
             as [t2|] eqn:H2|].
        + rewrite (lookup_valid _ t1 t2 w H1 H2) in Hstep.
          destruct (price_script w) as [|a rest]; [discriminate|].
          inversion Hall as [|? ? Ha Hrest]; subst.
          destruct (price_outcome a) as [[price|]|e] eqn:Ho.
          * now destruct (Ha price).
          * rewrite Hslot in Hstep. injection Hstep as <- <-. now split.
          * injection Hstep as <- <-. now split.
        + rewrite (lookup_invalid _ w (or_intror H2)) in Hstep.
          injection Hstep as <- <-. now split.
        + rewrite (lookup_invalid _ w (or_introl H1)) in Hstep.
          injection Hstep as <- <-. now split.
      - rewrite (process_not_priced tx Hp st w) in Hstep.
        injection Hstep as <- <-. now split. }
    destruct Hsame as [-> Hall1]. now apply (IH st w1 st' w').
Qed.

(** When the price endpoint has no price for any lookup (no point, or a
    failed request, every time), the aggregation returns the result of
    zeros, however many transactions were fetched. *)
Theorem no_price_no_costs (c : cursor_field) (address : string) (w : world)
    (r : AggregateResult.t) (w' : world) :
  Forall without_price (price_script w) ->
  calculateTotalGasCost c address w = Some (Normal r, w') ->
  r = empty_summary.
Proof.
  intros Hall. unfold calculateTotalGasCost, bind, fetchTransactionHistory.
  destruct (fetch_loop c (S (List.length (history_script w))) address [] Undefined w)
    as [[[txs|e] w0]|] eqn:Hfetch; try discriminate.
  destruct (fetch_loop_requests c address _ _ _ _ _ _ Hfetch)
    as [taken [pages [Hh [Hp _]]]].
  destruct (for_of txs no_totals w0) as [[[st|e] w1]|] eqn:Hloop; try discriminate.
  cbn. intros [= <- _].
  rewrite <- Hp in Hall.
  now rewrite (for_of_without_price txs no_totals w0 st w1 Hall eq_refl Hloop).
Qed.

Lemma no_price_no_costs_witness :
  Forall without_price (price_script no_price_world) /\
  calculateTotalGasCost before_field "0xabc" no_price_world =
    Some (Normal empty_summary, no_price_after) /\
  empty_summary = empty_summary.
Proof.
  assert (H1 : Forall without_price (price_script no_price_world))
    by (repeat constructor; intros price; discriminate).
  assert (H2 : calculateTotalGasCost before_field "0xabc" no_price_world =
               Some (Normal empty_summary, no_price_after))
    by (vm_compute; reflexivity).
  split; [exact H1|]. split; [exact H2|].
  exact (no_price_no_costs before_field "0xabc" no_price_world empty_summary
           no_price_after H1 H2).
Defined.

(** ** Records the loop passes over *)

(** A transaction whose time stamp gives no valid span of dates (a text
    that is no number, a number out of the range of dates) is passed over
    without a price request: the lookup raises a RangeError before it sends
    anything, and the handler of the loop body catches it. *)
Theorem invalid_timestamp_skip (tx : TransactionRecord) (wei : Z) (eth : number) :
  priced tx = Some (wei, eth) ->
  new_Date (ToNumber (blockTimestamp tx)) = None \/
  new_Date (fadd (ToNumber (blockTimestamp tx)) (number_of_Z 3600000)) = None ->
  (forall st w, process_transaction tx st w = Some (Normal st, w)) /\
  (forall pre post st w,
      for_of (pre ++ tx :: post)%list st w = for_of (pre ++ post)%list st w).
Proof.
  intros Hp Hdate.
  assert (Hskip : skipped tx).
  { intros st w. rewrite (process_priced tx wei eth st w Hp).
    now rewrite (lookup_invalid (blockTimestamp tx) w Hdate). }
  split; [exact Hskip|]. now apply skipped_for_of.
Qed.

Lemma invalid_timestamp_skip_witness :
  process_transaction tx_iso_timestamp no_totals (lookups [price_point "2000.5"] []) =
    Some (Normal no_totals, lookups [price_point "2000.5"] []).
Proof.
  refine (proj1 (invalid_timestamp_skip tx_iso_timestamp 420000000000000
                   (parseFloat (String "0.00042")) _ _) no_totals _).
  - vm_compute. reflexivity.
  - left. vm_compute. reflexivity.
Defined.

(** A transaction whose gas used or gas price is no integer for [BigInt]
    (a text with a fraction or other characters, a number with a fraction)
    is passed over without a price request: the conversion throws inside
    the [try] of the loop body. *)
Theorem not_an_integer_skip (tx : TransactionRecord) (e : error) :
  BigInt (gasUsedValue tx) = Throw e \/ BigInt (gasPriceValue tx) = Throw e ->
  (forall st w, process_transaction tx st w = Some (Normal st, w)) /\
  (forall pre post st w,
      for_of (pre ++ tx :: post)%list st w = for_of (pre ++ post)%list st w).
Proof.
  intros H.
  assert (Hp : priced tx = None).
  { unfold priced, wei_cost.
    destruct (truthy (gasUsedValue tx) && truthy (gasPriceValue tx)
              && truthy (blockTimestamp tx)); [|reflexivity].
    destruct H as [H|H]; rewrite H; [reflexivity|].
    now destruct (BigInt (gasUsedValue tx)). }
  split; [exact (process_not_priced tx Hp)|].
  apply skipped_for_of. exact (process_not_priced tx Hp).
Qed.

Lemma not_an_integer_skip_witness :
  process_transaction tx_fractional_gas no_totals (lookups [price_point "2000.5"] []) =
    Some (Normal no_totals, lookups [price_point "2000.5"] []).
Proof.
  refine (proj1 (not_an_integer_skip tx_fractional_gas (raised SyntaxError) _) no_totals _).
  left. vm_compute. reflexivity.
Defined.

(** ** The preferred fields *)

(** With a truthy [gasUsed] and a truthy [effectiveGasPrice] the nominal
    [gas] and [gasPrice] fields play no part: whatever they hold, the loop
    body does the same. *)
Theorem effective_fields_preferred (tx : TransactionRecord) (gas' gasPrice' : value)
    (st : totals) (w : world) :
  truthy (gasUsed tx) = true ->
  truthy (effectiveGasPrice tx) = true ->
  process_transaction (with_nominal tx gas' gasPrice') st w = process_transaction tx st w.
Proof.
  intros Hg Hp. unfold process_transaction, account, logical_or.
  cbn [with_nominal hash gasUsed gas effectiveGasPrice gasPrice blockTimestamp].
  now rewrite Hg, Hp.
Qed.

Lemma effective_fields_preferred_witness :
  process_transaction (with_nominal tx_both (String "1") (String "1")) no_totals
      (lookups [price_point "2000.5"] []) =
  process_transaction tx_both no_totals (lookups [price_point "2000.5"] []).
Proof.
  apply (effective_fields_preferred tx_both (String "1") (String "1")); reflexivity.
Defined.

(** ** The last valid price over a run *)

(** A turn of the loop leaves the variables as they are or accounts the
    transaction at a price, which is the last valid price from then on. *)
Lemma process_step_slot (tx : TransactionRecord) (st : totals) (w : world)
    (st' : totals) (w' : world) :
  process_transaction tx st w = Some (Normal st', w') ->
  st' = st \/
  exists wei eth price, st' = account tx wei eth price (Some price) st.
Proof.
  intros H. destruct (priced tx) as [[wei eth]|] eqn:Hp.
  - rewrite (process_priced tx wei eth st w Hp) in H.
    destruct (fetchHistoricalETHPrice (blockTimestamp tx) w) as [[[[price|]|e] w0]|];
      try discriminate; injection H as <- _.
    + right. now exists wei, eth, price.
    + destruct (lastValidPrice st) as [last|] eqn:Hslot; [right|now left].
      now exists wei, eth, last.
    + now left.
  - rewrite (process_not_priced tx Hp st w) in H. injection H as <- _. now left.
Qed.

(** Over a run, a list of costs that is not empty comes with a last valid
    price. *)
Lemma for_of_slot (txs : list TransactionRecord) :
  forall st w st' w',
    for_of txs st w = Some (Normal st', w') ->
    (txCosts st <> [] -> lastValidPrice st <> None) ->
    txCosts st' <> [] -> lastValidPrice st' <> None.
Proof.
  induction txs as [|tx txs IH]; intros st w st' w' H Hinv; simpl in H.
  - now injection H as <- _.
  - unfold bind in H.
    destruct (process_transaction tx st w) as [[[st1|e1] w1]|] eqn:Hstep; try discriminate.
    apply (IH st1 w1 st' w' H).
    destruct (process_step_slot tx st w st1 w1 Hstep) as [->|[wei [eth [price ->]]]];
      [exact Hinv|].
    intros _. discriminate.
Qed.

(** Once a run has accounted a transaction, a later transaction whose
    lookup finds no price is never passed over for it: it is accounted at
    the last valid price. *)
Theorem fallback_stays_available (pre : list TransactionRecord) (tx : TransactionRecord)
    (wei : Z) (eth : number) (w : world) (st1 : totals) (w1 w2 : world) :
  for_of pre no_totals w = Some (Normal st1, w1) ->
  txCosts st1 <> [] ->
  priced tx = Some (wei, eth) ->
  fetchHistoricalETHPrice (blockTimestamp tx) w1 = Some (Normal None, w2) ->
  exists X,
    lastValidPrice st1 = Some X /\
    for_of (pre ++ [tx])%list no_totals w =
      Some (Normal (account tx wei eth X (Some X) st1), w2).
Proof.
  intros Hpre Hcosts Hp Hlookup.
  pose proof (for_of_slot pre no_totals w st1 w1 Hpre (fun H => match H eq_refl with end)
                Hcosts) as Hslot.
  destruct (lastValidPrice st1) as [X|] eqn:HX; [|now destruct Hslot].
  exists X. split; [reflexivity|].
  rewrite for_of_app. unfold bind. rewrite Hpre. simpl. unfold bind.
  rewrite (process_priced tx wei eth st1 w1 Hp), Hlookup, HX. reflexivity.
Qed.

Lemma fallback_stays_available_witness :
  exists X,
    lastValidPrice after_tx_a = Some X /\
    for_of ([tx_a] ++ [tx_b])%list no_totals
      (lookups [price_point "2000.5"; price_not_found; price_point "2100"] []) =
      Some (Normal (account tx_b 630000000000000 (parseFloat (String "0.00063"))
                      X (Some X) after_tx_a),
            lookups [price_point "2100"]
                    [price_request 1700000000000; price_request 1700000100000]).
Proof.
  apply (fallback_stays_available [tx_a] tx_b 630000000000000
           (parseFloat (String "0.00063"))
           (lookups [price_point "2000.5"; price_not_found; price_point "2100"] [])
           after_tx_a
           (lookups [price_not_found; price_point "2100"] [price_request 1700000000000])).
  - vm_compute. reflexivity.
  - discriminate.
  - vm_compute. reflexivity.
  - vm_compute. reflexivity.
Defined.

(** ** A price that is no number *)

Lemma fadd_NaN_r (x : number) : fadd x NaN = NaN.
Proof. now destruct x. Qed.

Lemma fmul_NaN_r (x : number) : fmul x NaN = NaN.
Proof. now destruct x. Qed.

(** A total in USD that is NaN stays NaN. *)
Lemma for_of_usd_NaN (txs : list TransactionRecord) :
  forall st w st' w',
    for_of txs st w = Some (Normal st', w') ->
    totalGasCostUSD st = NaN ->
    totalGasCostUSD st' = NaN.
Proof.
  induction txs as [|tx txs IH]; intros st w st' w' H Hnan; simpl in H.
  - now injection H as <- _.
  - unfold bind in H.
    destruct (process_transaction tx st w) as [[[st1|e1] w1]|] eqn:Hstep; try discriminate.
    apply (IH st1 w1 st' w' H).
    destruct (process_step_slot tx st w st1 w1 Hstep) as [->|[wei [eth [price ->]]]];
      [exact Hnan|].
    unfold account. cbn [totalGasCostUSD]. now rewrite Hnan.
Qed.

(** When the lookup of a transaction resolves to NaN (the first price
    point has no numeric [value]), the transaction is accounted at NaN; NaN
    becomes the last valid price, and [totalGasCostUSD] of the run is the
    text NaN whatever the transactions after it cost. *)
Theorem nan_price_spoils_total (tx : TransactionRecord) (rest : list TransactionRecord)
    (wei : Z) (eth : number) (st : totals) (w w1 : world) (st' : totals) (w' : world) :
  priced tx = Some (wei, eth) ->
  fetchHistoricalETHPrice (blockTimestamp tx) w = Some (Normal (Some NaN), w1) ->
  for_of (tx :: rest) st w = Some (Normal st', w') ->
  process_transaction tx st w = Some (Normal (account tx wei eth NaN (Some NaN) st), w1) /\
  costUSD (List.last (txCosts (account tx wei eth NaN (Some NaN) st))
                     {| cost_hash := Undefined; cost_timestamp := Undefined;
                        costETH := NaN; costUSD := S754_zero false |}) = NaN /\
  AggregateResult.totalGasCostUSD (summary st') = "NaN".
Proof.
  intros Hp Hlookup Hrun.
  assert (Hstep : process_transaction tx st w =
                  Some (Normal (account tx wei eth NaN (Some NaN) st), w1)).
  { rewrite (process_priced tx wei eth st w Hp). now rewrite Hlookup. }
  split; [exact Hstep|]. split.
  - unfold account. cbn [txCosts]. rewrite last_last. cbn [costUSD]. apply fmul_NaN_r.
  - simpl in Hrun. unfold bind in Hrun. rewrite Hstep in Hrun.
    assert (Hnan : totalGasCostUSD st' = NaN).
    { apply (for_of_usd_NaN rest _ w1 st' w' Hrun).
      unfold account. cbn [totalGasCostUSD]. rewrite fmul_NaN_r. apply fadd_NaN_r. }
    unfold summary. cbn [AggregateResult.totalGasCostUSD]. now rewrite Hnan.
Qed.

Lemma nan_price_spoils_total_witness :
  AggregateResult.totalGasCostUSD
    (summary (account tx_b 630000000000000 (parseFloat (String "0.00063"))
                (parseFloat (String "2000.5")) (Some (parseFloat (String "2000.5")))
                (account tx_a 420000000000000 (parseFloat (String "0.00042"))
                   NaN (Some NaN) no_totals))) = "NaN".
Proof.
  refine (proj2 (proj2 (nan_price_spoils_total tx_a [tx_b] 420000000000000
                          (parseFloat (String "0.00042")) no_totals
                          (lookups [Resolved (Some [{| point_value := Undefined |}]);
                                    price_point "2000.5"] [])
                          (lookups [price_point "2000.5"] [price_request 1700000000000])
                          _
                          (lookups [] [price_request 1700000000000;
                                       price_request 1700000100000])
                          _ _ _)));
    vm_compute; reflexivity.
Defined.

(** ** The total in wei as a text *)

(** [totalGasCostWei] is the decimal text of an integer: [BigInt] reads it
    back as the total the loop ended with, and writing that integer gives
    the text again. *)
Theorem wei_total_reads_back (c : cursor_field) (address : string) (w : world)
    (r : AggregateResult.t) (w' : world) :
  calculateTotalGasCost c address w = Some (Normal r, w') ->
  exists txs w0 st,
    fetchTransactionHistory c address w = Some (Normal txs, w0) /\
    for_of txs no_totals w0 = Some (Normal st, w') /\
    BigInt (String (AggregateResult.totalGasCostWei r)) = Normal (totalGasCostWei st) /\
    BigInt_toString (totalGasCostWei st) = AggregateResult.totalGasCostWei r.
Proof.
  unfold calculateTotalGasCost, bind.
  destruct (fetchTransactionHistory c address w) as [[[txs|e] w0]|]; try discriminate.
  destruct (for_of txs no_totals w0) as [[[st|e] w1]|] eqn:Hrun; try discriminate.
  cbn. intros [= <- <-]. exists txs, w0, st.
  split; [reflexivity|]. split; [exact Hrun|]. split; [|reflexivity].
  cbn [summary AggregateResult.totalGasCostWei]. apply BigInt_of_decimal.
Qed.

Lemma wei_total_reads_back_witness :
  exists txs w0 st,
    fetchTransactionHistory before_field "0xabc" ten_dollar_world = Some (Normal txs, w0) /\
    for_of txs no_totals w0 = Some (Normal st, ten_dollar_after) /\
    BigInt (String (AggregateResult.totalGasCostWei ten_dollar_result)) =
      Normal (totalGasCostWei st) /\
    BigInt_toString (totalGasCostWei st) = AggregateResult.totalGasCostWei ten_dollar_result.
Proof.
  apply (wei_total_reads_back before_field "0xabc" ten_dollar_world ten_dollar_result).
  vm_compute. reflexivity.
Defined.

(** ** The total in USD as a text *)

Lemma substring_all (s : string) : substring 0 (String.length s) s = s.
Proof. induction s as [|ch s IH]; simpl; [reflexivity|now rewrite IH]. Qed.

Lemma substring_split (s : string) :
  forall i j, (i + j = String.length s)%nat ->
              substring 0 i s ++ substring i j s = s.
Proof.
  induction s as [|ch s IH]; intros i j H; simpl in H.
  - destruct i, j; try discriminate. reflexivity.
  - destruct i as [|i].
    + destruct j as [|j]; [discriminate|]. injection H as ->.
      change (substring 0 0 (String.String ch s)) with EmptyString.
      change ("" ++ substring 0 (S (String.length s)) (String.String ch s))
        with (String.String ch (substring 0 (String.length s) s)).
      now rewrite substring_all.
    + simpl. f_equal. apply IH. simpl in H. lia.
Qed.

Lemma uint_of_zeros (z : nat) (s : string) (d : uint) :
  NilEmpty.uint_of_string s = Some d ->
  exists d', NilEmpty.uint_of_string (zeros z ++ s) = Some d' /\ N.of_uint d' = N.of_uint d.
Proof.
  intros H. induction z as [|z [d' [Hz Hd]]]; simpl.
  - now exists d.
  - rewrite Hz. exists (D0 d'). split; [reflexivity|]. exact Hd.
Qed.

(** The digits of a number, with zeros before them, have its value. *)
Lemma digits_value_padded (z : nat) (n : N) :
  digits_value (zeros z ++ decimal n) = n.
Proof.
  assert (H : exists d, NilEmpty.uint_of_string (decimal n) = Some d /\ N.of_uint d = n).
  { unfold decimal, NilZero.string_of_uint.
    pose proof (DecimalN.Unsigned.of_to n) as Hn.
    destruct (N.to_uint n) as [|d|d|d|d|d|d|d|d|d|d] eqn:Hd;
      try (eexists; split; [apply NilEmpty.usu|exact Hn]).
    exists (D0 Nil). split; [reflexivity|]. exact Hn. }
  destruct H as [d [Hd Hn]].
  destruct (uint_of_zeros z _ d Hd) as [d' [Hz Hd']].
  unfold digits_value. rewrite Hz. now rewrite Hd'.
Qed.

Lemma prefix_Infinity_digit (ch : ascii) (rest : string) :
  is_digit ch = true -> prefix "Infinity" (String.String ch rest) = false.
Proof.
  intros H. destruct ch as [[] [] [] [] [] [] [] []]; try discriminate H; reflexivity.
Qed.

(** Reading digits, a point and two digits as a decimal literal. *)
Lemma scan_fixed (neg : bool) (a b : string) :
  string_forall is_digit a = true -> a <> EmptyString ->
  string_forall is_digit b = true -> String.length b = 2%nat ->
  scan_decimal ((if neg then "-" else "") ++ a ++ "." ++ b) =
    Some (neg, MagDecimal (digits_value (a ++ b)) (-2), EmptyString).
Proof.
  intros Ha Hne Hb Hlen.
  destruct a as [|d a]; [now destruct Hne|].
  assert (Hd : is_digit d = true) by (simpl in Ha; now apply andb_prop in Ha).
  assert (Hbody : scan_unsigned_decimal (String.String d (a ++ String.String "." b)) =
                  Some (MagDecimal (digits_value (String.String d a ++ b)) (-2), EmptyString)).
  { unfold scan_unsigned_decimal.
    rewrite (prefix_Infinity_digit d _ Hd).
    change (String.String d (a ++ String.String "." b))
      with (String.String d a ++ String.String "." b).
    rewrite (span_digits_until (String.String d a) "." b Ha eq_refl).
    rewrite (span_digits_all b Hb).
    destruct b as [|c1 [|c2 [|c3 b]]]; try discriminate Hlen. reflexivity. }
  unfold scan_decimal. destruct neg; cbn [append].
  - now rewrite Hbody.
  - destruct d as [[] [] [] [] [] [] [] []]; try discriminate Hd; cbv iota;
      now rewrite Hbody.
Qed.

(** [toFixed(2)] and the reading of decimal literals: the text of a sum
    in the fixed range reads back as its sign and the count of hundredths
    nearest to its magnitude (the larger of two that are as near), with
    nothing after it. *)
Theorem usd_text_reads_back (st : totals) :
  fixed_range (totalGasCostUSD st) = true ->
  scan_decimal (AggregateResult.totalGasCostUSD (summary st)) =
    Some (written_sign (totalGasCostUSD st),
          MagDecimal (Z.to_N (hundredths (totalGasCostUSD st))) (-2), EmptyString) /\
  match totalGasCostUSD st with
  | S754_finite _ m e =>
      let (num, den) := fraction_of m e in
      2 * den * hundredths (totalGasCostUSD st) <= 200 * num + den
        < 2 * den * (hundredths (totalGasCostUSD st) + 1)
  | _ => True
  end.
Proof.
  unfold summary. cbn [AggregateResult.totalGasCostUSD].
  destruct (totalGasCostUSD st) as [s|s| |s m e]; try discriminate.
  - intros _. split; [reflexivity|exact I].
  - unfold fixed_range, toFixed2, hundredths, written_sign.
    assert (Hden : 0 < snd (fraction_of m e)).
    { unfold fraction_of. destruct e; simpl; lia. }
    destruct (fraction_of m e) as [num den]. simpl in Hden.
    intros Hr. apply Z.ltb_lt in Hr.
    destruct (10 ^ 21 * den <=? num) eqn:Hge; [apply Z.leb_le in Hge; lia|].
    set (n := (2 * num * 100 + den) / (2 * den)).
    set (m0 := decimal (Z.to_N n)).
    set (m1 := zeros (3 - String.length m0) ++ m0).
    assert (Hm1 : string_forall is_digit m1 = true).
    { unfold m1. rewrite string_forall_app, zeros_digits. apply decimal_digits_only. }
    assert (Hlen : (3 <= String.length m1)%nat).
    { unfold m1. rewrite string_length_app, zeros_length.
      pose proof (decimal_nonempty (Z.to_N n)) as H. fold m0 in H. lia. }
    split.
    + rewrite scan_fixed.
      * rewrite substring_split by lia. unfold m1, m0. now rewrite digits_value_padded.
      * now apply substring_forall.
      * intros Hempty.
        assert (Hl : String.length (substring 0 (String.length m1 - 2) m1) =
                     (String.length m1 - 2)%nat) by (apply substring_length; lia).
        rewrite Hempty in Hl. simpl in Hl. lia.
      * now apply substring_forall.
      * apply substring_length. lia.
    + pose proof (Z.mul_div_le (2 * num * 100 + den) (2 * den) ltac:(lia)) as Hlo.
      pose proof (Z.mul_succ_div_gt (2 * num * 100 + den) (2 * den) ltac:(lia)) as Hhi.
      fold n in Hlo, Hhi. lia.
Qed.

Lemma usd_text_reads_back_witness :
  AggregateResult.totalGasCostUSD (summary totals_1_005) = "1.00" /\
  scan_decimal (AggregateResult.totalGasCostUSD (summary totals_1_005)) =
    Some (false, MagDecimal 100 (-2), EmptyString).
Proof.
  split; [reflexivity|].
  refine (proj1 (usd_text_reads_back totals_1_005 _)). vm_compute. reflexivity.
Defined.

(** ** The page and the route *)

Lemma or_unknown_truthy (v : value) :
  truthy (logical_or v (String "Unknown error")) = true.
Proof. unfold logical_or. now destruct (truthy v) eqn:H. Qed.

(** A submit without an address fetches nothing and clears the page; a
    submit with an address ends with the page not loading and without a
    chart, showing the data and no error when the response was ok, and an
    error that is not empty and no result in every other case. *)
Theorem submit_outcome (answer : Home.fetched) (p : Home.Page) :
  let p' := Home.handleSubmit answer p in
  Home.address p' = Home.address p /\
  Home.chartData p' = None /\
  match Home.address p with
  | EmptyString =>
      snd (Home.handleSubmit_start p) = None /\
      Home.loading p' = Home.loading p /\
      Home.result p' = None /\ Home.error p' = String ""
  | a =>
      snd (Home.handleSubmit_start p) = Some ("/api/calculateGas?address=" ++ a) /\
      Home.loading p' = false /\
      match answer with
      | Home.Answer true data => Home.result p' = Some data /\ Home.error p' = String ""
      | _ => Home.result p' = None /\ truthy (Home.error p') = true
      end
  end.
Proof.
  unfold Home.handleSubmit, Home.handleSubmit_start.
  destruct (Home.address p) as [|ch a] eqn:Ha; cbn; rewrite ?Ha; repeat split.
  - now destruct answer as [|[] data].
  - now destruct answer as [|[] data].
  - destruct answer as [|[] data]; cbn; repeat split. apply or_unknown_truthy.
Qed.

(** The page after the answer of the route. For status 400 it shows the
    error "Missing address parameter"; for status 500 the message of the
    failed request, or "Unknown error" when that message is empty; for
    status 200 no error and the summary, with the three totals as the route
    wrote them and as many costs. *)
Theorem page_shows_route_answer (c : cursor_field) (request : Request) (w : world)
    (response : Response) (w' : world) (p : Home.Page) :
  GET c request w = Some (Normal response, w') ->
  Home.address p <> "" ->
  let p' := Home.handleSubmit (Home.answer_of response) p in
  (status response = 400 /\ Home.result p' = None /\
   Home.error p' = String "Missing address parameter") \/
  (exists e,
      status response = 500 /\ body response = ErrorBody (message e) /\
      Home.result p' = None /\
      Home.error p' = String (if (message e =? "")%string then "Unknown error"
                              else message e)) \/
  (exists r s,
      status response = 200 /\ body response = ResultBody r /\
      Home.error p' = String "" /\ Home.result p' = Some (Home.ResultData s) /\
      Home.totalGasCostWei s = AggregateResult.totalGasCostWei r /\
      Home.totalGasCostETH s = AggregateResult.totalGasCostETH r /\
      Home.totalGasCostUSD s = AggregateResult.totalGasCostUSD r /\
      List.length (Home.transactionCosts s) =
        List.length (AggregateResult.transactionCosts r)).
Proof.
  intros HGET Ha p'. subst p'.
  unfold Home.handleSubmit, Home.handleSubmit_start.
  destruct (Home.address p) as [|ch a]; [contradiction|].
  destruct response as [b st].
  destruct (GET_cases c request w _ w' HGET)
    as [[Hst [Hb _]]|[[addr [e [_ [_ [Hst [Hb _]]]]]]|[addr [r [_ [_ [Hst [Hb _]]]]]]]];
    cbn in Hst, Hb; subst b st.
  - left. cbn. auto.
  - right. left. exists e. cbn. repeat split.
    unfold logical_or. cbn. now destruct (message e).
  - right. right. exists r. eexists. cbn.
    split; [reflexivity|]. split; [reflexivity|]. split; [reflexivity|].
    split; [reflexivity|]. cbn. repeat split. apply length_map.
Qed.

Lemma page_shows_route_answer_witness :
  Home.error
    (Home.handleSubmit
       (Home.answer_of {| body := ErrorBody "Network Error"; status := 500 |})
       (Home.setAddress "0xabc" Home.initial)) = String "Network Error".
Proof.
  destruct (page_shows_route_answer before_field
              {| searchParams := [("address", "0xabc")] |} failing_second_page
              {| body := ErrorBody "Network Error"; status := 500 |}
              (after_history failing_second_page [Resolved page_3]
                 (page_requests before_field "0xabc" [page_1]))
              (Home.setAddress "0xabc" Home.initial))
    as [[H _]|[[e [_ [_ [_ H]]]]|[r [s [H _]]]]].
  - vm_compute. reflexivity.
  - discriminate.
  - discriminate H.
  - reflexivity.
  - discriminate H.
Defined.

(** ** The chart and the result *)

Lemma step_keeps_chart_of_result (p : Home.Page) (ev : Home.event) :
  Home.chart_of_result p -> Home.chart_of_result (Home.step p ev).
Proof.
  intros Hinv. pose proof Hinv as [Hload Hchart].
  destruct ev as [text| |answer|]; cbn.
  - split; [exact Hload|exact Hchart].
  - destruct (Home.loading p) eqn:Hl; [exact Hinv|].
    unfold Home.handleSubmit_start.
    destruct (Home.address p); unfold Home.chart_of_result; cbn; split;
      try discriminate; auto.
  - destruct (Home.loading p) eqn:Hl; [|exact Hinv].
    destruct (Hload eq_refl) as [Hr Hc].
    unfold Home.handleSubmit_finish.
    destruct answer as [|[] data]; unfold Home.chart_of_result; cbn;
      (split; [discriminate|]); intros ch; rewrite Hc; discriminate.
  - unfold Home.handleGenerateChart.
    destruct (Home.result p) as [[msg|r]|] eqn:Hr; try exact Hinv.
    cbn. destruct (Home.transactionCosts r) as [|tx costs] eqn:Hcosts; [exact Hinv|].
    unfold Home.chart_of_result. cbn. split.
    + intros Hl. destruct (Hload Hl) as [Hnone _]. discriminate.
    + intros ch [= <-]. exists r. rewrite Hcosts.
      split; [exact Hr|]. split; [discriminate|reflexivity].
Qed.

(** Whatever happens to the page, in whatever order, the chart it shows
    is the chart of the result it shows, which has a cost or more; and
    while it is loading it shows neither a result nor a chart. *)
Theorem chart_belongs_to_result (events : list Home.event) :
  Home.chart_of_result (fold_left Home.step events Home.initial).
Proof.
  assert (H : forall p, Home.chart_of_result p ->
                        Home.chart_of_result (fold_left Home.step events p)).
  { induction events as [|ev events IH]; intros p Hp; simpl; [exact Hp|].
    apply IH. now apply step_keeps_chart_of_result. }
  apply H. split; [discriminate|]. intros ch. discriminate.
Qed.

(** ** What the fetcher returns *)

(** The loop over the pages, read backwards: when it ends, the answers it
    took were continuing pages and then the answer that stops it, and what
    it gives is what those answers make. *)
Lemma fetch_loop_took (c : cursor_field) (address : string) (turns : nat) :
  forall (acc : list TransactionRecord) (cursor : value) (w : world)
         (r : completion (list TransactionRecord)) (w' : world),
    fetch_loop c turns address acc cursor w = Some (r, w') ->
    exists pages final,
      history_script w = (map Resolved pages ++ final :: history_script w')%list /\
      Forall (fun d => continuing c d = true) pages /\
      stops c final /\
      r = stop_result (acc ++ List.concat (map records pages))%list final.
Proof.
  induction turns as [|turns IH]; intros acc cursor w r w' H; [discriminate|].
  cbn [fetch_loop] in H. unfold bind in H.
  destruct (history_script w) as [|a rest] eqn:Hw.
  { unfold fetch_page, try_catch, bind, post_history in H. now rewrite Hw in H. }
  assert (Hcases : (exists d, a = Resolved d /\ continuing c d = true) \/ stops c a).
  { destruct a as [d|e]; [|now right]. simpl.
    destruct (continuing c d) eqn:Hc; [left; now exists d|now right]. }
  destruct Hcases as [[d [-> Hc]]|Hstop].
  - rewrite (fetch_page_continuing c address acc cursor d rest w Hc Hw) in H.
    destruct (IH _ _ _ r w' H) as [pages [final [Hs [Hall [Hstop ->]]]]].
    exists (d :: pages), final. cbn in Hs. repeat split; auto.
    + simpl. now rewrite Hs.
    + simpl. now rewrite app_assoc.
  - destruct (fetch_page_stops c address acc cursor a rest w Hstop Hw) as [cursor' Hpage].
    rewrite Hpage in H. exists [], a. simpl. rewrite app_nil_r.
    destruct a as [last|e]; cbn in H; injection H as <- <-; repeat split; auto.
Qed.

(** The fetcher never returns but the records that came, all of them and
    in their order: when it returns, the answers it took were pages with
    records and a cursor, then one page without a cursor or without
    records, and its list is the records of these pages one after the
    other; when it throws, the answers it took were such pages and then the
    failed request whose error it throws. *)
Theorem fetch_returns_what_came (c : cursor_field) (address : string) (w : world)
    (r : completion (list TransactionRecord)) (w' : world) :
  fetchTransactionHistory c address w = Some (r, w') ->
  exists pages final,
    history_script w = (map Resolved pages ++ final :: history_script w')%list /\
    Forall (fun d => continuing c d = true) pages /\
    match final, r with
    | Resolved last, Normal txs =>
        continuing c last = false /\
        txs = (List.concat (map records pages) ++ records last)%list
    | Rejected e, Throw e' => e' = e
    | _, _ => False
    end.
Proof.
  unfold fetchTransactionHistory. intros H.
  destruct (fetch_loop_took c address _ _ _ _ _ _ H) as [pages [final [Hs [Hall [Hstop ->]]]]].
  exists pages, final. split; [exact Hs|]. split; [exact Hall|].
  destruct final as [last|e]; simpl; auto.
Qed.

Lemma fetch_returns_what_came_witness :
  exists pages final,
    history_script three_pages =
      (map Resolved pages ++ final :: history_script (after_history three_pages []
         (page_requests before_field "0xabc" [page_1; page_2])))%list /\
    Forall (fun d => continuing before_field d = true) pages /\
    match final, Normal (repeat tx_a 50 ++ repeat tx_b 50 ++ repeat tx_c 10)%list with
    | Resolved last, Normal txs =>
        continuing before_field last = false /\
        txs = (List.concat (map records pages) ++ records last)%list
    | Rejected e, Throw e' => e' = e
    | _, _ => False
    end.
Proof.
  apply (fetch_returns_what_came before_field "0xabc" three_pages).
  vm_compute. reflexivity.
Defined.

(** ** The totals and the list of costs *)

(** Over a run, the totals in ether and in USD grow by the costs of the
    new entries, added one after the other. *)
Lemma for_of_sums (txs : list TransactionRecord) :
  forall st w st' w',
    for_of txs st w = Some (Normal st', w') ->
    exists costs,
      txCosts st' = (txCosts st ++ costs)%list /\
      totalGasCostETH st' = fold_left fadd (map costETH costs) (totalGasCostETH st) /\
      totalGasCostUSD st' = fold_left fadd (map costUSD costs) (totalGasCostUSD st).
Proof.
  induction txs as [|tx txs IH]; intros st w st' w' H; simpl in H.
  - injection H as <- _. exists []. now rewrite app_nil_r.
  - unfold bind in H.
    destruct (process_transaction tx st w) as [[[st1|e1] w1]|] eqn:Hstep; try discriminate.
    destruct (IH st1 w1 st' w' H) as [costs [Hc [He Hu]]].
    destruct (process_step_slot tx st w st1 w1 Hstep) as [->|[wei [eth [price ->]]]].
    + now exists costs.
    + exists ({| cost_hash := hash tx; cost_timestamp := blockTimestamp tx;
                 costETH := eth; costUSD := fmul eth price |} :: costs).
      unfold account in *. cbn [txCosts totalGasCostETH totalGasCostUSD] in *.
      repeat split.
      * rewrite Hc. now rewrite <- app_assoc.
      * exact He.
      * exact Hu.
Qed.

(** The totals of a result are the sums of the costs it lists:
    [totalGasCostETH] is the text of the sum of the [costETH] of the
    entries, [totalGasCostUSD] is [toFixed(2)] of the sum of their
    [costUSD], each sum formed from 0 in the order of the list. *)
Theorem totals_are_sums (c : cursor_field) (address : string) (w : world)
    (r : AggregateResult.t) (w' : world) :
  calculateTotalGasCost c address w = Some (Normal r, w') ->
  AggregateResult.totalGasCostETH r =
    Number_toString (float_sum (map costETH (AggregateResult.transactionCosts r))) /\
  AggregateResult.totalGasCostUSD r =
    toFixed2 (float_sum (map costUSD (AggregateResult.transactionCosts r))).
Proof.
  unfold calculateTotalGasCost, bind.
  destruct (fetchTransactionHistory c address w) as [[[txs|e] w0]|]; try discriminate.
  destruct (for_of txs no_totals w0) as [[[st|e] w1]|] eqn:Hrun; try discriminate.
  cbn. intros [= <- _].
  destruct (for_of_sums txs no_totals w0 st w1 Hrun) as [costs [Hc [He Hu]]].
  cbn in Hc. subst costs. unfold summary, float_sum.
  cbn [AggregateResult.totalGasCostETH AggregateResult.totalGasCostUSD
       AggregateResult.transactionCosts].
  now rewrite He, Hu.
Qed.

Lemma totals_are_sums_witness :
  AggregateResult.totalGasCostETH ten_dollar_result =
    Number_toString
      (float_sum (map costETH (AggregateResult.transactionCosts ten_dollar_result))) /\
  AggregateResult.totalGasCostUSD ten_dollar_result =
    toFixed2 (float_sum (map costUSD (AggregateResult.transactionCosts ten_dollar_result))).
Proof.
  apply (totals_are_sums before_field "0xabc" ten_dollar_world ten_dollar_result
           ten_dollar_after).
  vm_compute. reflexivity.
Defined.
